(** * Quantum Espresso molecular-dynamics tutorial: deck, runner and clean-up

    A shallow embedding of the notebook
    [6_dynamics/2_nbra_workflows/2_step1_qe/tutorial.ipynb]:

    - the input deck [QE_input_file] (a string literal) and the record of
      parameters it is an instance of;
    - the cell that writes the deck to [x0.md.in] with
      [open] / [f.write] / [f.close];
    - the shell line that runs [pw.x < x0.md.in > x0.md.out];
    - the clean-up step [sh clean.sh], whose [rm] diagnostics the notebook
      records for the patterns [x0.w*], [sl*], [x0.u*] and [CR*]. *)

From Stdlib Require Import Ascii String List ZArith Lia Bool.
From Stdlib Require Import Numbers.DecimalString Numbers.DecimalNat.
From stdpp Require Import base gmap strings list.

Open Scope list_scope.

(** ** Characters and lines *)

Definition LF : ascii := "010"%char.

Definition is_LF (c : ascii) : bool := Ascii.eqb c LF.

(** A string that fits on one line of the deck. *)
Fixpoint single_line (s : string) : bool :=
  match s with
  | EmptyString => true
  | String c s' => negb (is_LF c) && single_line s'
  end.

(** A string without blanks: one column of a table row. *)
Fixpoint no_blank (s : string) : bool :=
  match s with
  | EmptyString => true
  | String c s' => negb (Ascii.is_space c) && no_blank s'
  end.

(** Every line is terminated by a line feed, as in the triple-quoted
    literal of the notebook. *)
Fixpoint unlines (ls : list string) : string :=
  match ls with
  | [] => EmptyString
  | l :: ls' => l +:+ String LF (unlines ls')
  end.

(** The inverse direction: cut a text at its line feeds. *)
Fixpoint lines (s : string) : list string :=
  match s with
  | EmptyString => []
  | String c s' =>
      if is_LF c then EmptyString :: lines s'
      else match lines s' with
           | [] => [String c EmptyString]
           | l :: ls => String c l :: ls
           end
  end.

Fixpoint spaces (n : nat) : string :=
  match n with
  | O => EmptyString
  | S n' => String " " (spaces n')
  end.

(** Left-justify [s] in a field of [w] columns (Python's [str.ljust]). *)
Definition ljust (w : nat) (s : string) : string :=
  s +:+ spaces (w - String.length s).

Definition show_nat (n : nat) : string :=
  NilZero.string_of_uint (Nat.to_uint n).

Definition show_Z (z : Z) : string :=
  NilZero.string_of_int (Z.to_int z).

Definition show_bool (b : bool) : string :=
  if b then "true" else "false".

(** ** The sections of a deck *)

Inductive Section : Type :=
  | CONTROL | SYSTEM | ELECTRONS | IONS
  | ATOMIC_SPECIES | K_POINTS | CELL_PARAMETERS | ATOMIC_POSITIONS.

#[global] Instance Section_eq_dec : EqDecision Section.
Proof. solve_decision. Defined.

Definition all_sections : list Section :=
  [CONTROL; SYSTEM; ELECTRONS; IONS;
   ATOMIC_SPECIES; K_POINTS; CELL_PARAMETERS; ATOMIC_POSITIONS].

Definition namelist_of_name (s : string) : option Section :=
  if String.eqb s "CONTROL" then Some CONTROL
  else if String.eqb s "SYSTEM" then Some SYSTEM
  else if String.eqb s "ELECTRONS" then Some ELECTRONS
  else if String.eqb s "IONS" then Some IONS
  else None.

Definition card_of_keyword (s : string) : option Section :=
  if String.eqb s "ATOMIC_SPECIES" then Some ATOMIC_SPECIES
  else if String.eqb s "K_POINTS" then Some K_POINTS
  else if String.eqb s "CELL_PARAMETERS" then Some CELL_PARAMETERS
  else if String.eqb s "ATOMIC_POSITIONS" then Some ATOMIC_POSITIONS
  else None.

(** The characters of a line up to its first blank. *)
Fixpoint first_word (l : string) : string :=
  match l with
  | EmptyString => EmptyString
  | String c l' => if Ascii.is_space c then EmptyString else String c (first_word l')
  end.

(** A line is a section header when it is [&NAME] for a namelist, or
    starts in column 0 with the keyword of a card. *)
Definition header_of_line (l : string) : option Section :=
  match l with
  | String c name =>
      if Ascii.eqb c "&" then namelist_of_name name
      else card_of_keyword (first_word l)
  | EmptyString => None
  end.

Definition section_headers (text : string) : list Section :=
  omap header_of_line (lines text).


(** The lines of the block that follows the header of [sec], up to the
    next empty line. *)
Fixpoint block_body (ls : list string) : list string :=
  match ls with
  | [] => []
  | l :: ls' => if String.eqb l "" then [] else l :: block_body ls'
  end.

Fixpoint block_after (sec : Section) (ls : list string) : list string :=
  match ls with
  | [] => []
  | l :: ls' =>
      if decide (header_of_line l = Some sec) then block_body ls'
      else block_after sec ls'
  end.


Fixpoint skip_blanks (s : string) : string :=
  match s with
  | EmptyString => EmptyString
  | String c s' => if Ascii.is_space c then skip_blanks s' else s
  end.

Fixpoint drop_chars (n : nat) (s : string) : string :=
  match n, s with
  | S n', String _ s' => drop_chars n' s'
  | _, _ => s
  end.

(** [chop_comma (v ++ ",") = Some v]: the value of a [key = value,] line. *)
Fixpoint chop_comma (s : string) : option string :=
  match s with
  | EmptyString => None
  | String c s' =>
      match s' with
      | EmptyString => if Ascii.eqb c "," then Some EmptyString else None
      | _ => option_map (String c) (chop_comma s')
      end
  end.

(** Read a line [  key   = value,] back into its key and value. *)
Definition parse_kv (l : string) : option (string * string) :=
  let l1 := skip_blanks l in
  let key := first_word l1 in
  match skip_blanks (drop_chars (String.length key) l1) with
  | String "=" (String " " v) => option_map (pair key) (chop_comma v)
  | _ => None
  end.

Fixpoint assoc_string (key : string) (kvs : list (string * string)) : option string :=
  match kvs with
  | [] => None
  | (k, v) :: kvs' => if String.eqb k key then Some v else assoc_string key kvs'
  end.

(** The value a namelist of the text gives to [key]. *)
Definition namelist_value (sec : Section) (key : string) (text : string) : option string :=
  assoc_string key (omap parse_kv (block_after sec (lines text))).







(** ** Tokens of the deck grammar *)

(** A scalar written on one line: a quoted string, a unit, or a number
    kept as it is spelled ([20.67055], [1.D-4], [0.30]). *)
Record Token : Type := mkToken {
  tok : string;
  tok_ok : single_line tok = true
}.

(** An atom label: one word that is neither a namelist marker nor the
    keyword of a card. *)
Definition is_label (s : string) : bool :=
  no_blank s
  && match s with String c _ => negb (Ascii.eqb c "&") | EmptyString => true end
  && match card_of_keyword s with Some _ => false | None => true end.

Record Label : Type := mkLabel {
  lbl : string;
  lbl_ok : is_label lbl = true
}.

Abbreviation tk s := (mkToken s eq_refl) (only parsing).
Abbreviation lb s := (mkLabel s eq_refl) (only parsing).

(** ** The deck as a record: one field per parameter of the literal *)

Record ControlBlock : Type := {
  calculation : Token;
  nstep : nat;
  dt : Token;
  pseudo_dir : Token;
  outdir : Token;
  prefix : Token;
  disk_io : Token
}.

Record SystemBlock : Type := {
  ibrav : Z;
  sys_nat : nat;      (* nat: declared number of atoms *)
  sys_ntyp : nat;     (* ntyp: declared number of species *)
  nspin : nat;
  ecutwfc : Token;
  ecutrho : Token;
  occupations : Token;
  smearing : Token;
  degauss : Token;
  nosym : bool
}.

Record ElectronsBlock : Type := {
  electron_maxstep : nat;
  conv_thr : Token;
  mixing_beta : Token
}.

Record IonsBlock : Type := {
  ion_dynamics : Token;
  ion_temperature : Token;
  tempw : Token;
  nraise : nat;
  pot_extrapolation : Token;
  wfc_extrapolation : Token
}.

Record SpeciesRow : Type := {
  sp_label : Label;
  sp_mass : Token;
  sp_pseudo : Token
}.

Record Vec3 : Type := { vx : Token; vy : Token; vz : Token }.

Record AtomRow : Type := {
  at_label : Label;
  at_pos : Vec3
}.

Record SimulationDeck : Type := {
  control : ControlBlock;
  system : SystemBlock;
  electrons : ElectronsBlock;
  ions : IonsBlock;
  species : list SpeciesRow;
  k_points : Token;
  cell_unit : Token;
  cell : Vec3 * Vec3 * Vec3;
  positions_unit : Token;
  positions : list AtomRow
}.

(** ** Rendering *)

Definition quoted (t : Token) : string := String "'" (tok t +:+ "'").

(** [  key<pad>= value,] with the equals signs of a block aligned at
    column [w]. *)
Definition kv_line (w : nat) (key value : string) : string :=
  String " " (String " " (ljust w key +:+ "= " +:+ value +:+ ",")).

Definition control_lines (c : ControlBlock) : list string :=
  [ "&CONTROL";
    kv_line 14 "calculation" (quoted (calculation c));
    kv_line 14 "nstep" (show_nat (nstep c));
    kv_line 14 "dt" (tok (dt c));
    kv_line 14 "pseudo_dir" (quoted (pseudo_dir c));
    kv_line 14 "outdir" (quoted (outdir c));
    kv_line 14 "prefix" (quoted (prefix c));
    kv_line 14 "disk_io" (quoted (disk_io c));
    "/"; "" ].

Definition system_lines (s : SystemBlock) : list string :=
  [ "&SYSTEM";
    kv_line 12 "ibrav" (show_Z (ibrav s));
    kv_line 12 "nat" (show_nat (sys_nat s));
    kv_line 12 "ntyp" (show_nat (sys_ntyp s));
    kv_line 12 "nspin" (show_nat (nspin s));
    kv_line 12 "ecutwfc" (tok (ecutwfc s));
    kv_line 12 "ecutrho" (tok (ecutrho s));
    kv_line 12 "occupations" (quoted (occupations s));
    kv_line 12 "smearing" (quoted (smearing s));
    kv_line 12 "degauss" (tok (degauss s));
    kv_line 12 "nosym" (show_bool (nosym s));
    "/"; "" ].

Definition electrons_lines (e : ElectronsBlock) : list string :=
  [ "&ELECTRONS";
    kv_line 17 "electron_maxstep" (show_nat (electron_maxstep e));
    kv_line 17 "conv_thr" (tok (conv_thr e));
    kv_line 17 "mixing_beta" (tok (mixing_beta e));
    "/"; "" ].

Definition ions_lines (i : IonsBlock) : list string :=
  [ "&IONS";
    kv_line 18 "ion_dynamics" (quoted (ion_dynamics i));
    kv_line 18 "ion_temperature" (quoted (ion_temperature i));
    kv_line 18 "tempw" (tok (tempw i));
    kv_line 18 "nraise" (show_nat (nraise i));
    kv_line 18 "pot_extrapolation" (quoted (pot_extrapolation i));
    kv_line 18 "wfc_extrapolation" (quoted (wfc_extrapolation i));
    "/"; "" ].

Definition species_line (r : SpeciesRow) : string :=
  ljust 2 (lbl (sp_label r)) +:+ " " +:+ tok (sp_mass r) +:+ " " +:+ tok (sp_pseudo r).

Definition vec3_columns (v : Vec3) : string :=
  tok (vx v) +:+ spaces 9 +:+ tok (vy v) +:+ spaces 9 +:+ tok (vz v).

Definition cell_line (v : Vec3) : string :=
  String " " (spaces 7 +:+ vec3_columns v).

Definition atom_line (r : AtomRow) : string :=
  ljust 5 (lbl (at_label r)) +:+ " " +:+ vec3_columns (at_pos r).

Definition species_lines (d : SimulationDeck) : list string :=
  "ATOMIC_SPECIES" :: map species_line (species d) ++ [""].

Definition k_points_lines (d : SimulationDeck) : list string :=
  [ "K_POINTS " +:+ tok (k_points d); "" ].

Definition cell_lines (d : SimulationDeck) : list string :=
  let '(a1, a2, a3) := cell d in
  [ "CELL_PARAMETERS  " +:+ tok (cell_unit d);
    cell_line a1; cell_line a2; cell_line a3; "" ].

Definition positions_lines (d : SimulationDeck) : list string :=
  ("ATOMIC_POSITIONS " +:+ tok (positions_unit d)) :: map atom_line (positions d).

Definition deck_lines (d : SimulationDeck) : list string :=
  "" :: control_lines (control d) ++ system_lines (system d)
     ++ electrons_lines (electrons d) ++ ions_lines (ions d)
     ++ species_lines d ++ k_points_lines d ++ cell_lines d
     ++ positions_lines d.

(** ** Results and errors *)

Inductive result (E A : Type) : Type :=
  | Ok (a : A)
  | Err (e : E).
Arguments Ok {E A} a.
Arguments Err {E A} e.

Inductive DeckError : Type := MalformedDeckError.

(** ** The count invariants of a deck *)

Definition species_names (d : SimulationDeck) : list string :=
  map (fun r => lbl (sp_label r)) (species d).


Definition distinct_species (d : SimulationDeck) : nat :=
  length (remove_dups (species_names d)).

Definition atom_count_ok (d : SimulationDeck) : Prop :=
  sys_nat (system d) = length (positions d).

Definition species_count_ok (d : SimulationDeck) : Prop :=
  sys_ntyp (system d) = distinct_species d.

Definition valid_deck (d : SimulationDeck) : Prop :=
  atom_count_ok d /\ species_count_ok d.

#[global] Instance valid_deck_dec d : Decision (valid_deck d).
Proof. unfold valid_deck, atom_count_ok, species_count_ok. apply _. Defined.

(** The text of a deck, laid out the way the literal [QE_input_file]
    below is laid out; for the parameters of the notebook it is that
    literal (lemma [buildDeck_tutorial]). *)
Definition deck_text (d : SimulationDeck) : string :=
  unlines (deck_lines d).

(** Modelled from the spec: the notebook has no function from a deck to
    its text, only the text of one deck (the literal of cell 4).  The
    spec's [buildDeck] fails with [MalformedDeckError] when the declared
    atom count differs from the number of coordinate rows or the declared
    species count from the number of distinct species rows, and otherwise
    never fails and returns the whole text. *)
Definition buildDeck (d : SimulationDeck) : result DeckError string :=
  if decide (valid_deck d) then Ok (deck_text d) else Err MalformedDeckError.

(** ** The deck of the notebook *)

(** The string assigned to [QE_input_file], character for character. *)
Definition QE_input_file : string :=
"
&CONTROL
  calculation   = 'md',
  nstep         = 100,
  dt            = 20.67055,
  pseudo_dir    = '/gpfs/scratch/brendan/nbra_tutorial/run_QE/',
  outdir        = './',
  prefix        = 'x0',
  disk_io       = 'low',
/

&SYSTEM
  ibrav       = 0,
  nat         = 6,
  ntyp        = 2,
  nspin       = 1,
  ecutwfc     = 30,
  ecutrho     = 300,
  occupations = 'smearing',
  smearing    = 'gaussian',
  degauss     = 0.01,
  nosym       = true,
/

&ELECTRONS
  electron_maxstep = 300,
  conv_thr         = 1.D-4,
  mixing_beta      = 0.30,
/

&IONS
  ion_dynamics      = 'verlet',
  ion_temperature   = 'andersen',
  tempw             = 300,
  nraise            = 10,
  pot_extrapolation = 'second-order',
  wfc_extrapolation = 'second-order',
/

ATOMIC_SPECIES
Ti 47.867 Ti.pbe-spn-rrkjus_psl.1.0.0.UPF
O  15.999 O.pbe-n-rrkjus_psl.1.0.0.UPF

K_POINTS gamma

CELL_PARAMETERS  angstrom
        4.6067771912         0.0000000000         0.0000000000
        0.0000000000         4.6067771912         0.0000000000
        0.0000000000         0.0000000000         2.9917566776

ATOMIC_POSITIONS angstrom
Ti    0.000000000         0.000000000         0.000000000
Ti    2.303388596         2.303388596         1.495878339
O     3.204133272         3.204133272         0.000000000
O     1.402643919         1.402643919         0.000000000
O     0.900744736         3.706032515         1.495878339
O     3.706032515         0.900744736         1.495878339
".

Definition v3 (x y z : Token) : Vec3 := {| vx := x; vy := y; vz := z |}.

Definition tutorial_positions : list AtomRow :=
  [ {| at_label := lb "Ti"; at_pos := v3 (tk "0.000000000") (tk "0.000000000") (tk "0.000000000") |};
    {| at_label := lb "Ti"; at_pos := v3 (tk "2.303388596") (tk "2.303388596") (tk "1.495878339") |};
    {| at_label := lb "O"; at_pos := v3 (tk "3.204133272") (tk "3.204133272") (tk "0.000000000") |};
    {| at_label := lb "O"; at_pos := v3 (tk "1.402643919") (tk "1.402643919") (tk "0.000000000") |};
    {| at_label := lb "O"; at_pos := v3 (tk "0.900744736") (tk "3.706032515") (tk "1.495878339") |};
    {| at_label := lb "O"; at_pos := v3 (tk "3.706032515") (tk "0.900744736") (tk "1.495878339") |} ].

Definition tutorial_deck : SimulationDeck := {|
  control := {|
    calculation := tk "md";
    nstep := 100;
    dt := tk "20.67055";
    pseudo_dir := tk "/gpfs/scratch/brendan/nbra_tutorial/run_QE/";
    outdir := tk "./";
    prefix := tk "x0";
    disk_io := tk "low" |};
  system := {|
    ibrav := 0;
    sys_nat := 6;
    sys_ntyp := 2;
    nspin := 1;
    ecutwfc := tk "30";
    ecutrho := tk "300";
    occupations := tk "smearing";
    smearing := tk "gaussian";
    degauss := tk "0.01";
    nosym := true |};
  electrons := {|
    electron_maxstep := 300;
    conv_thr := tk "1.D-4";
    mixing_beta := tk "0.30" |};
  ions := {|
    ion_dynamics := tk "verlet";
    ion_temperature := tk "andersen";
    tempw := tk "300";
    nraise := 10;
    pot_extrapolation := tk "second-order";
    wfc_extrapolation := tk "second-order" |};
  species :=
    [ {| sp_label := lb "Ti"; sp_mass := tk "47.867";
         sp_pseudo := tk "Ti.pbe-spn-rrkjus_psl.1.0.0.UPF" |};
      {| sp_label := lb "O"; sp_mass := tk "15.999";
         sp_pseudo := tk "O.pbe-n-rrkjus_psl.1.0.0.UPF" |} ];
  k_points := tk "gamma";
  cell_unit := tk "angstrom";
  cell :=
    ( v3 (tk "4.6067771912") (tk "0.0000000000") (tk "0.0000000000"),
      v3 (tk "0.0000000000") (tk "4.6067771912") (tk "0.0000000000"),
      v3 (tk "0.0000000000") (tk "0.0000000000") (tk "2.9917566776") );
  positions_unit := tk "angstrom";
  positions := tutorial_positions
|}.




(** ** The runner: files, handles and processes *)

(** What Python raises in the cell that writes the deck. *)
Inductive PyError : Type :=
  | IOError        (* [open] or [write] refused by the system *)
  | ValueError.    (* operation on a closed file object *)

(** The cells of the notebook, in the order of the file. *)
Inductive Cell : Type :=
  | CellModuleLoad | CellDeck | CellWrite | CellExecute | CellCleanup.

#[global] Instance Cell_eq_dec : EqDecision Cell.
Proof. solve_decision. Defined.

Inductive Event : Type :=
  | CellStart (c : Cell)
  | CellDone (c : Cell)
  | Invoked (bin inp out : string).   (* the shell starts [bin < inp > out] *)

#[global] Instance Event_eq_dec : EqDecision Event.
Proof. solve_decision. Defined.

(** An open text file of Python: the path it was opened on, the text
    that [write] has taken and not yet handed down ([TextIOWrapper]), and
    the bytes the buffered writer below it still holds. *)
Record FileObject : Type := {
  fo_path : string;
  fo_pending : string;
  fo_buffer : string
}.

#[global] Instance FileObject_eq_dec : EqDecision FileObject.
Proof. solve_decision. Defined.

Record World : Type := mkWorld {
  files : gmap string string;     (* the working directory: name to content *)
  handles : gmap nat FileObject;  (* open file objects *)
  exit_code : option Z;           (* IPython's [_exit_code] *)
  output : list string;           (* lines printed below the cells *)
  events : list Event
}.

(** The outcome of one run of an external program. *)
Record Outcome : Type := {
  proc_stdout : string;
  proc_files : gmap string string;   (* files it leaves in the working directory *)
  proc_exit : Z   (* the status the shell has for it: its exit code, or
                     128 + n when signal n ended it *)
}.

(** A program reads its standard input and the working directory. *)
Definition Program : Type := string -> gmap string string -> Outcome.

(** What the notebook does not decide: which paths can be opened for
    writing, the size a file can grow to before the device is full, the
    buffer size Python takes from the file system ([st_blksize]), the
    binaries on the machine, the status the shell reports for a binary
    it cannot run (127 when it is not found, 126 when it is not
    executable) and the status it reports when it cannot open a
    redirection (1 for bash, 2 for dash). *)
Record Env : Type := {
  writable : string -> bool;
  disk_room : nat;
  block_size : nat;
  binaries : string -> option Program;
  launch_failure : string -> Z;
  redirect_status : Z
}.

(** The text layer of Python hands its pending text down once it is
    longer than this ([TextIOWrapper._CHUNK_SIZE]). *)
Definition chunk_size : nat := 8 * 1024.

(** What IPython stores in [_exit_code] for the status of a [!] line: a
    status above 128 (the shell's report of a child ended by a signal)
    is stored as the negated signal number. *)
Definition ipython_status (status : Z) : Z :=
  if (128 <? status)%Z then (- (status - 128))%Z else status.

(** Python statements: they change the world and return or raise. *)
Definition Py (A : Type) : Type := World -> result PyError A * World.

#[global] Instance Py_ret : MRet Py := fun A (a : A) w => (Ok a, w).

#[global] Instance Py_bind : MBind Py := fun A B (k : A -> Py B) (m : Py A) w =>
  match m w with
  | (Ok a, w') => k a w'
  | (Err e, w') => (Err e, w')
  end.

Definition log (e : Event) : Py unit := fun w =>
  (Ok tt, mkWorld (files w) (handles w) (exit_code w) (output w) (events w ++ [e])).

Definition print (l : string) : Py unit := fun w =>
  (Ok tt, mkWorld (files w) (handles w) (exit_code w) (output w ++ [l]) (events w)).

Definition set_files (fs : gmap string string) (w : World) : World :=
  mkWorld fs (handles w) (exit_code w) (output w) (events w).

Definition set_handles (hs : gmap nat FileObject) (w : World) : World :=
  mkWorld (files w) hs (exit_code w) (output w) (events w).

Definition set_exit_code (c : Z) (w : World) : World :=
  mkWorld (files w) (handles w) (Some c) (output w) (events w).

Fixpoint take_chars (n : nat) (s : string) : string :=
  match n, s with
  | S n', String c s' => String c (take_chars n' s')
  | _, _ => EmptyString
  end.

(** Bytes reaching a file through an open descriptor: they are appended
    to the file; a file that is no longer in the directory stays out of
    it. *)
Definition os_append (path data : string) (fs : gmap string string)
    : gmap string string :=
  match fs !! path with
  | Some content => <[path := content +:+ data]> fs
  | None => fs
  end.

Definition set_handle (h : nat) (fo : FileObject) (w : World) : World :=
  set_handles (<[h := fo]> (handles w)) w.

Definition file_object (path pending buffer : string) : FileObject :=
  {| fo_path := path; fo_pending := pending; fo_buffer := buffer |}.

Section Runner.

Context (env : Env).

(** The room the device still has for the file at [path]. *)
Definition room_left (path : string) (fs : gmap string string) : nat :=
  disk_room env - String.length (default "" (fs !! path)).

(** Writing [data] out to the file: when the device has room for all of
    it, it is all written; otherwise what fits is written and the rest
    comes back with the failure. *)
Definition flush_data (path data : string) (fs : gmap string string)
    : bool * string * gmap string string :=
  let left := room_left path fs in
  if decide (String.length data <= left) then
    (true, EmptyString, os_append path data fs)
  else
    (false, drop_chars left data, os_append path (take_chars left data) fs).

(** [f = open(path, "w")]: the file is created or truncated and a new
    file object with empty buffers is returned; an unwritable path
    raises. *)
Definition py_open_w (path : string) : Py nat := fun w =>
  if writable env path then
    let h := fresh (dom (handles w)) in
    (Ok h, set_handle h (file_object path "" "")
             (set_files (<[path := ""]> (files w)) w))
  else (Err IOError, w).

(** The buffered writer takes [data] from the text layer.  Data that fits
    beside what the buffer holds is kept there.  Otherwise the buffer is
    written out first; then data no longer than the buffer is kept, and
    longer data goes to the file at once: if the device takes only part
    of it, a rest no longer than the buffer is kept for later, and a
    longer rest makes the call raise. *)
Definition buffered_write (h : nat) (fo : FileObject) (data : string) : Py unit :=
  fun w =>
  let path := fo_path fo in
  if decide (String.length data <= block_size env - String.length (fo_buffer fo)) then
    (Ok tt, set_handle h (file_object path "" (fo_buffer fo +:+ data)) w)
  else
    match flush_data path (fo_buffer fo) (files w) with
    | (false, rest, fs1) =>
        (Err IOError, set_handle h (file_object path "" rest) (set_files fs1 w))
    | (true, _, fs1) =>
        if decide (String.length data <= block_size env) then
          (Ok tt, set_handle h (file_object path "" data) (set_files fs1 w))
        else
          match flush_data path data fs1 with
          | (true, _, fs2) =>
              (Ok tt, set_handle h (file_object path "" "") (set_files fs2 w))
          | (false, rest, fs2) =>
              if decide (String.length rest <= block_size env) then
                (Ok tt, set_handle h (file_object path "" rest) (set_files fs2 w))
              else
                (Err IOError, set_handle h (file_object path "" "") (set_files fs2 w))
          end
    end.

(** [f.write(text)]: the text joins the pending text of the file object;
    nothing reaches the file until the pending text is longer than
    [chunk_size], and only then can the call raise. *)
Definition py_write (h : nat) (text : string) : Py unit := fun w =>
  match handles w !! h with
  | None => (Err ValueError, w)
  | Some fo =>
      let pending := fo_pending fo +:+ text in
      if decide (String.length pending <= chunk_size) then
        (Ok tt, set_handle h (file_object (fo_path fo) pending (fo_buffer fo)) w)
      else buffered_write h fo pending w
  end.

(** [f.close()]: what the file object still holds is written out, and the
    file object is released whether or not that succeeds; when the
    device has no room for all of it, what fits is written and the call
    raises. *)
Definition py_close (h : nat) : Py unit := fun w =>
  match handles w !! h with
  | None => (Ok tt, w)
  | Some fo =>
      match flush_data (fo_path fo) (fo_buffer fo +:+ fo_pending fo) (files w) with
      | (ok, _, fs1) =>
          (if ok then Ok tt else Err IOError,
           set_handles (delete h (handles w)) (set_files fs1 w))
      end
  end.

(** The cell that writes the deck:
    [f = open(path, "w"); f.write(text); f.close()]. *)
Definition writeDeck (text path : string) : Py unit :=
  f ← py_open_w path;
  py_write f text;;
  py_close f.

(** [open(path).read()] *)
Definition py_read (path : string) : Py string := fun w =>
  match files w !! path with
  | Some content => (Ok content, w)
  | None => (Err IOError, w)
  end.

(** What a [!] line leaves behind: the status, as IPython stores it, is
    the value of the line and goes to [_exit_code].  The line never
    raises in Python. *)
Definition shell_done (status : Z) (w : World) : result PyError Z * World :=
  (Ok (ipython_status status), set_exit_code (ipython_status status) w).

(** [!bin < inp > out]: the shell opens [inp] for reading, then creates
    or truncates [out], then runs the binary with these as its standard
    input and output and waits for it.  A redirection that cannot be
    opened, or a binary that cannot be run, gives the shell's own
    status. *)
Definition execute (bin inp out : string) : Py Z := fun w =>
  match files w !! inp with
  | None => shell_done (redirect_status env) w
  | Some _ =>
      if writable env out then
        let dir := <[out := ""]> (files w) in
        match binaries env bin with
        | None => shell_done (launch_failure env bin) (set_files dir w)
        | Some prog =>
            let r := prog (default "" (dir !! inp)) dir in
            shell_done (proc_exit r)
              (set_files (<[out := proc_stdout r]> (proc_files r ∪ files w))
                 (snd (log (Invoked bin inp out) w)))
        end
      else shell_done (redirect_status env) w
  end.

End Runner.


(** ** Clean-up *)

(** Shell pattern matching on one file name: [*] stands for any run of
    characters and [?] for any one character. *)
Fixpoint wild_match (p : string) : string -> bool :=
  match p with
  | EmptyString => fun n => match n with EmptyString => true | _ => false end
  | String c p' =>
      if Ascii.eqb c "*" then
        fix star (n : string) : bool :=
          wild_match p' n
          || match n with
             | EmptyString => false
             | String _ n' => star n'
             end
      else if Ascii.eqb c "?" then
        fun n => match n with
                 | EmptyString => false
                 | String _ n' => wild_match p' n'
                 end
      else
        fun n => match n with
                 | EmptyString => false
                 | String d n' => Ascii.eqb c d && wild_match p' n'
                 end
  end.

(** A pattern without wildcards. *)
Fixpoint literal (p : string) : bool :=
  match p with
  | EmptyString => true
  | String c p' => negb (Ascii.eqb c "*") && negb (Ascii.eqb c "?") && literal p'
  end.

Definition starts_with_dot (s : string) : bool :=
  match s with
  | String c _ => Ascii.eqb c "."
  | EmptyString => false
  end.

(** A leading dot of a file name is only matched by a dot of the pattern. *)
Definition glob_match (pat name : string) : bool :=
  if starts_with_dot name && negb (starts_with_dot pat) then false
  else wild_match pat name.

Definition matches_some (pats : list string) (name : string) : bool :=
  existsb (fun pat => glob_match pat name) pats.

Definition rm_diagnostic (pat : string) : string :=
  "rm: cannot remove ‘" +:+ pat +:+ "’: No such file or directory".

(** Modelled from the spec: the script [clean.sh] that the last cell runs
    is not among the sources; only its call and the output of its [rm]
    commands are.  The spec's [cleanup(globPatterns)] deletes any existing
    file matching each pattern, and a pattern matching zero files is not
    an error: the step goes on and never raises.  For such a pattern [rm]
    prints the line that the notebook records. *)
Definition rm_pattern (pat : string) : Py unit := fun w =>
  let matched := filter (fun kv => glob_match pat kv.1 = true) (files w) in
  if decide (matched = ∅) then print (rm_diagnostic pat) w
  else (Ok tt, set_files (filter (fun kv => glob_match pat kv.1 = false) (files w)) w).

(** Modelled from the spec: [cleanup(globPatterns)] of the absent
    [clean.sh] deals with the patterns one after the other. *)
Fixpoint cleanup (globPatterns : list string) : Py unit :=
  match globPatterns with
  | [] => mret tt
  | pat :: pats => rm_pattern pat;; cleanup pats
  end.

(** ** The notebook *)

Definition pw_x : string := "/util/academic/espresso/6.2.1/bin/pw.x".
Definition deck_path : string := "x0.md.in".
Definition output_path : string := "x0.md.out".

(** The patterns of the four [rm] diagnostics recorded under the last cell. *)
Definition clean_patterns : list string := ["x0.w*"; "sl*"; "x0.u*"; "CR*"].

(** The recorded output of the last cell, line by line. *)
Definition recorded_cleanup_output : list string :=
  [ "rm: cannot remove ‘x0.w*’: No such file or directory";
    "rm: cannot remove ‘sl*’: No such file or directory";
    "rm: cannot remove ‘x0.u*’: No such file or directory";
    "rm: cannot remove ‘CR*’: No such file or directory" ].

Definition run_cell {A} (c : Cell) (body : Py A) : Py A :=
  log (CellStart c);;
  a ← body;
  log (CellDone c);;
  mret a.

(** [!module load espresso/6.2.1] runs in a shell of its own and leaves
    the files of the working directory alone. *)
Definition module_load : Py unit := mret tt.

(** The cells from top to bottom. *)
Definition notebook (env : Env) : Py unit :=
  run_cell CellModuleLoad module_load;;
  deck ← run_cell CellDeck (mret QE_input_file);
  run_cell CellWrite (writeDeck env deck deck_path);;
  run_cell CellExecute (execute env pw_x deck_path output_path);;
  run_cell CellCleanup (cleanup clean_patterns).

Definition add_event (e : Event) (w : World) : World := snd (log e w).

(** The events of a run in which every cell returns. *)
Definition full_sequence : list Event :=
  [ CellStart CellModuleLoad; CellDone CellModuleLoad;
    CellStart CellDeck; CellDone CellDeck;
    CellStart CellWrite; CellDone CellWrite;
    CellStart CellExecute; Invoked pw_x deck_path output_path; CellDone CellExecute;
    CellStart CellCleanup; CellDone CellCleanup ].

(** The events a run appends to those already there. *)
Definition new_events (before after : World) : list Event :=
  drop (length (events before)) (events after).

Definition is_invocation (e : Event) : bool :=
  match e with Invoked _ _ _ => true | _ => false end.

Definition invocations (es : list Event) : nat :=
  length (filter (fun e => is_invocation e = true) es).

(** The prefix of a file name: what comes before its first dot. *)
Fixpoint name_prefix (s : string) : string :=
  match s with
  | EmptyString => EmptyString
  | String c s' => if Ascii.eqb c "." then EmptyString else String c (name_prefix s')
  end.

(** The string between the quotes of a quoted value. *)
Definition unquote (s : string) : option string :=
  match s with
  | String c s' =>
      if Ascii.eqb c "'" then
        match String.rev s' with
        | String c' r => if Ascii.eqb c' "'" then Some (String.rev r) else None
        | EmptyString => None
        end
      else None
  | EmptyString => None
  end.

(** The run prefix a deck text declares in its control block. *)
Definition deck_prefix (text : string) : option string :=
  match namelist_value CONTROL "prefix" text with
  | Some v => unquote v
  | None => None
  end.

(** ** Sample machines and worlds *)

(** An empty working directory, nothing open, nothing printed. *)
Definition world0 : World := mkWorld ∅ ∅ None [] [].

(** A binary that prints nothing and exits with status 1. *)
Definition stub_binary : Program := fun _ _ =>
  {| proc_stdout := ""; proc_files := ∅; proc_exit := 1 |}.

(** A machine with room on the disk, where [pw.x] is the stub. *)
Definition env_stub : Env := {|
  writable := fun _ => true;
  disk_room := 4096;
  block_size := 4096;
  binaries := fun bin => if String.eqb bin pw_x then Some stub_binary else None;
  launch_failure := fun _ => 127%Z;
  redirect_status := 1
|}.


(** A machine on which no path can be opened for writing. *)
Definition env_readonly : Env := {|
  writable := fun _ => false;
  disk_room := 4096;
  block_size := 4096;
  binaries := binaries env_stub;
  launch_failure := fun _ => 127%Z;
  redirect_status := 1
|}.

(** A binary that ends with status 200. *)
Definition loud_binary : Program := fun _ _ =>
  {| proc_stdout := ""; proc_files := ∅; proc_exit := 200 |}.

(** The sample machine with that binary as [pw.x]. *)
Definition env_loud : Env := {|
  writable := fun _ => true;
  disk_room := 4096;
  block_size := 4096;
  binaries := fun bin => if String.eqb bin pw_x then Some loud_binary else None;
  launch_failure := fun _ => 127%Z;
  redirect_status := 1
|}.

(** The working directory once the deck is written. *)
Definition world_with_deck : World :=
  set_files {[ deck_path := QE_input_file ]} world0.

(** A pattern is scoped by a prefix when a dot ends its first part, as
    in [x0.w*]; [sl*] and [CR*] are not. *)
Definition prefix_scoped (pat : string) : bool :=
  negb (String.eqb (name_prefix pat) pat).

(** ** Proof automation *)

Create HintDb one_line.

Ltac one_line_list :=
  repeat first
    [ apply Forall_nil_2
    | apply Forall_cons_2
    | apply Forall_app_2 ];
  try solve [ reflexivity | auto with one_line ].


(** ** Basic facts about strings and lines *)

Lemma app_String (c : ascii) (a b : string) :
  String c a +:+ b = String c (a +:+ b).
Proof. reflexivity. Qed.

Lemma app_empty_l (b : string) : "" +:+ b = b.
Proof. reflexivity. Qed.

Lemma single_line_app (a b : string) :
  single_line (a +:+ b) = single_line a && single_line b.
Proof.
  induction a as [|c a IH]; [reflexivity|].
  rewrite app_String. simpl. rewrite IH. apply andb_assoc.
Qed.

Lemma single_line_spaces n : single_line (spaces n) = true.
Proof. induction n; simpl; auto. Qed.

Lemma single_line_ljust w s : single_line (ljust w s) = single_line s.
Proof.
  unfold ljust. rewrite single_line_app, single_line_spaces. apply andb_true_r.
Qed.

Lemma no_blank_single_line s : no_blank s = true -> single_line s = true.
Proof.
  induction s as [|c s IH]; [reflexivity|]. simpl.
  intros [Hc Hs]%andb_true_iff. rewrite (IH Hs), andb_true_r.
  destruct (is_LF c) eqn:E; [|reflexivity].
  apply Ascii.eqb_eq in E. subst c. discriminate Hc.
Qed.

Lemma single_line_uint d : single_line (NilEmpty.string_of_uint d) = true.
Proof. induction d; simpl; auto. Qed.

Lemma single_line_show_nat n : single_line (show_nat n) = true.
Proof.
  unfold show_nat, NilZero.string_of_uint.
  destruct (Nat.to_uint n); try reflexivity; apply single_line_uint.
Qed.

Lemma single_line_show_Z z : single_line (show_Z z) = true.
Proof.
  unfold show_Z, NilZero.string_of_int, NilZero.string_of_uint.
  destruct (Z.to_int z) as [d|d]; destruct d; try reflexivity;
    apply single_line_uint.
Qed.

Lemma single_line_show_bool b : single_line (show_bool b) = true.
Proof. destruct b; reflexivity. Qed.

Lemma single_line_label (l : Label) : single_line (lbl l) = true.
Proof.
  apply no_blank_single_line. destruct l as [s Hs]. simpl.
  unfold is_label in Hs.
  apply andb_true_iff in Hs as [Hs _]. apply andb_true_iff in Hs as [Hs _].
  exact Hs.
Qed.

Lemma single_line_quoted t : single_line (quoted t) = true.
Proof.
  unfold quoted. simpl. rewrite single_line_app, (tok_ok t). reflexivity.
Qed.

Lemma lines_app_LF (l rest : string) :
  single_line l = true -> lines (l +:+ String LF rest) = l :: lines rest.
Proof.
  induction l as [|c l IH]; intros Hl.
  - reflexivity.
  - simpl in Hl. apply andb_true_iff in Hl as [Hc Hl].
    rewrite app_String. simpl. apply negb_true_iff in Hc. rewrite Hc.
    rewrite (IH Hl). reflexivity.
Qed.

(** Cutting a text that was assembled from lines returns the lines. *)
Lemma lines_unlines (ls : list string) :
  Forall (fun l => single_line l = true) ls -> lines (unlines ls) = ls.
Proof.
  induction 1 as [|l ls Hl _ IH]; [reflexivity|].
  simpl. rewrite (lines_app_LF _ _ Hl), IH. reflexivity.
Qed.


Lemma app_assoc_string (a b c : string) : (a +:+ b) +:+ c = a +:+ (b +:+ c).
Proof.
  induction a as [|x a IH]; [reflexivity|].
  rewrite !app_String, IH. reflexivity.
Qed.

Lemma single_line_String c s :
  single_line (String c s) = negb (is_LF c) && single_line s.
Proof. reflexivity. Qed.

Lemma single_line_kv w k v :
  single_line k = true -> single_line v = true ->
  single_line (kv_line w k v) = true.
Proof.
  intros Hk Hv. unfold kv_line. rewrite !single_line_String.
  rewrite !single_line_app, single_line_ljust, Hk, Hv. reflexivity.
Qed.

Lemma single_line_vec3 v : single_line (vec3_columns v) = true.
Proof.
  unfold vec3_columns.
  rewrite !single_line_app, !single_line_spaces, !tok_ok. reflexivity.
Qed.

Lemma single_line_species_line r : single_line (species_line r) = true.
Proof.
  unfold species_line.
  rewrite !single_line_app, single_line_ljust, single_line_label, !tok_ok.
  reflexivity.
Qed.

Lemma single_line_cell_line v : single_line (cell_line v) = true.
Proof.
  unfold cell_line. rewrite single_line_String.
  rewrite single_line_app, single_line_spaces, single_line_vec3. reflexivity.
Qed.

Lemma single_line_atom_line r : single_line (atom_line r) = true.
Proof.
  unfold atom_line.
  rewrite !single_line_app, single_line_ljust, single_line_label,
    single_line_vec3.
  reflexivity.
Qed.

#[local] Hint Resolve single_line_kv single_line_quoted single_line_show_nat
  single_line_show_Z single_line_show_bool tok_ok single_line_species_line
  single_line_cell_line single_line_atom_line : one_line.

Lemma deck_lines_single_line d :
  Forall (fun l => single_line l = true) (deck_lines d).
Proof.
  unfold deck_lines, control_lines, system_lines, electrons_lines, ions_lines,
    species_lines, k_points_lines, cell_lines, positions_lines.
  destruct (cell d) as [[a1 a2] a3].
  one_line_list.
  - apply Forall_map, Forall_forall. intros; apply single_line_species_line.
  - rewrite single_line_app, tok_ok. reflexivity.
  - rewrite single_line_app, tok_ok. reflexivity.
  - rewrite single_line_app, tok_ok. reflexivity.
  - apply Forall_map, Forall_forall. intros; apply single_line_atom_line.
Qed.

(** ** Headers of the rendered lines *)

Lemma first_word_app s r :
  no_blank s = true -> first_word (s +:+ String " " r) = s.
Proof.
  induction s as [|c s IH]; [reflexivity|].
  intros H. simpl in H. apply andb_true_iff in H as [Hc Hs].
  rewrite app_String. apply negb_true_iff in Hc.
  cbn [first_word]. rewrite Hc, (IH Hs). reflexivity.
Qed.

Lemma spaces_then_space n r : exists r', spaces n +:+ String " " r = String " " r'.
Proof. destruct n; simpl; eauto. Qed.

Lemma first_word_ljust w s r :
  no_blank s = true -> first_word (ljust w s +:+ String " " r) = s.
Proof.
  intros Hs. unfold ljust. rewrite app_assoc_string.
  destruct (spaces_then_space (w - String.length s) r) as [r' ->].
  apply first_word_app, Hs.
Qed.

Lemma label_parts (l : Label) :
  no_blank (lbl l) = true
  /\ match lbl l with String c _ => Ascii.eqb c "&" = false | EmptyString => True end
  /\ card_of_keyword (lbl l) = None.
Proof.
  destruct l as [s Hs]. simpl. unfold is_label in Hs.
  apply andb_true_iff in Hs as [Hs H3]. apply andb_true_iff in Hs as [H1 H2].
  repeat split; [exact H1| |].
  - destruct s; [exact I|]. apply negb_true_iff, H2.
  - destruct (card_of_keyword s); [discriminate|reflexivity].
Qed.

(** A table row that starts with a label is never taken for a header. *)
Lemma header_label_row w (l : Label) r :
  header_of_line (ljust w (lbl l) +:+ String " " r) = None.
Proof.
  destruct (label_parts l) as (Hb & Hamp & Hkw).
  pose proof (first_word_ljust w _ r Hb) as Hfw.
  destruct (lbl l) as [|c s] eqn:E.
  - unfold ljust. rewrite app_empty_l.
    destruct (spaces_then_space (w - String.length "") r) as [r' ->].
    reflexivity.
  - unfold header_of_line. unfold ljust in *. rewrite !app_String in *.
    rewrite Hamp, Hfw. exact Hkw.
Qed.

Lemma header_species_line r : header_of_line (species_line r) = None.
Proof. unfold species_line. apply header_label_row. Qed.

Lemma header_atom_line r : header_of_line (atom_line r) = None.
Proof. unfold atom_line. apply header_label_row. Qed.

Lemma omap_cons {A B} (f : A -> option B) (x : A) (l : list A) :
  omap f (x :: l) = match f x with Some y => y :: omap f l | None => omap f l end.
Proof. reflexivity. Qed.

Lemma headers_rows {A} (f : A -> string) (rows : list A) :
  (forall r, header_of_line (f r) = None) ->
  omap header_of_line (map f rows) = [].
Proof.
  intros Hf. induction rows as [|r rows IH]; [reflexivity|].
  simpl. rewrite Hf. exact IH.
Qed.

Lemma headers_control c : omap header_of_line (control_lines c) = [CONTROL].
Proof. reflexivity. Qed.

Lemma headers_system s : omap header_of_line (system_lines s) = [SYSTEM].
Proof. reflexivity. Qed.

Lemma headers_electrons e : omap header_of_line (electrons_lines e) = [ELECTRONS].
Proof. reflexivity. Qed.

Lemma headers_ions i : omap header_of_line (ions_lines i) = [IONS].
Proof. reflexivity. Qed.

Lemma headers_species d : omap header_of_line (species_lines d) = [ATOMIC_SPECIES].
Proof.
  unfold species_lines. rewrite omap_cons.
  change (header_of_line "ATOMIC_SPECIES") with (Some ATOMIC_SPECIES).
  rewrite omap_app, (headers_rows _ _ header_species_line). reflexivity.
Qed.

Lemma headers_k_points d : omap header_of_line (k_points_lines d) = [K_POINTS].
Proof. reflexivity. Qed.

Lemma headers_cell d : omap header_of_line (cell_lines d) = [CELL_PARAMETERS].
Proof. unfold cell_lines. destruct (cell d) as [[a1 a2] a3]. reflexivity. Qed.

Lemma headers_positions d :
  omap header_of_line (positions_lines d) = [ATOMIC_POSITIONS].
Proof.
  unfold positions_lines. rewrite omap_cons.
  rewrite (headers_rows _ _ header_atom_line). reflexivity.
Qed.

Lemma headers_deck_lines d : omap header_of_line (deck_lines d) = all_sections.
Proof.
  unfold deck_lines. rewrite omap_cons.
  change (header_of_line "") with (@None Section).
  rewrite !omap_app, headers_control, headers_system, headers_electrons,
    headers_ions, headers_species, headers_k_points, headers_cell,
    headers_positions.
  reflexivity.
Qed.

Lemma section_headers_buildDeck d :
  section_headers (unlines (deck_lines d)) = all_sections.
Proof.
  unfold section_headers.
  rewrite (lines_unlines _ (deck_lines_single_line d)).
  apply headers_deck_lines.
Qed.

(** ** Reading blocks back from the rendered lines *)










(** ** Reading a [key = value,] line back *)











(** ** The cell that writes the deck *)

Lemma take_chars_all s n : String.length s <= n -> take_chars n s = s.
Proof.
  revert n. induction s as [|c s IH]; intros [|n] H; simpl in *;
    try reflexivity; try lia.
  rewrite IH by lia. reflexivity.
Qed.

Lemma app_nil_r_string (s : string) : s +:+ "" = s.
Proof. induction s as [|c s IH]; [reflexivity|]. rewrite app_String, IH. reflexivity. Qed.

Lemma length_take_chars n s :
  String.length (take_chars n s) = Nat.min n (String.length s).
Proof.
  revert s. induction n as [|n IH]; intros [|c s]; try reflexivity.
  cbn [take_chars String.length Nat.min]. rewrite IH. reflexivity.
Qed.

Lemma length_drop_chars n s :
  String.length (drop_chars n s) = String.length s - n.
Proof.
  revert s. induction n as [|n IH]; intros [|c s]; try reflexivity.
  cbn [drop_chars String.length Nat.sub]. apply IH.
Qed.

Lemma fresh_handle_unused (w : World) : handles w !! fresh (dom (handles w)) = None.
Proof. apply not_elem_of_dom, is_fresh. Qed.

Lemma os_append_insert path content data (fs : gmap string string) :
  os_append path data (<[path := content]> fs) = <[path := content +:+ data]> fs.
Proof. unfold os_append. rewrite lookup_insert_eq, insert_insert_eq. reflexivity. Qed.

Lemma flush_data_insert env path content data (fs : gmap string string) :
  flush_data env path data (<[path := content]> fs) =
    if decide (String.length data <= disk_room env - String.length content) then
      (true, "", <[path := content +:+ data]> fs)
    else
      (false, drop_chars (disk_room env - String.length content) data,
       <[path := content +:+ take_chars (disk_room env - String.length content) data]> fs).
Proof.
  unfold flush_data, room_left. rewrite lookup_insert_eq. cbn [default from_option id].
  rewrite !os_append_insert. reflexivity.
Qed.

(** Closing a file object writes out what it holds and releases it. *)
Lemma py_close_open env h fo content (fs : gmap string string) w :
  handles w !! h = Some fo ->
  files w = <[fo_path fo := content]> fs ->
  py_close env h w =
    if decide (String.length (fo_buffer fo +:+ fo_pending fo)
               <= disk_room env - String.length content) then
      (Ok tt,
       set_handles (delete h (handles w))
         (set_files (<[fo_path fo := content +:+ (fo_buffer fo +:+ fo_pending fo)]> fs) w))
    else
      (Err IOError,
       set_handles (delete h (handles w))
         (set_files
            (<[fo_path fo := content +:+ take_chars (disk_room env - String.length content)
                                           (fo_buffer fo +:+ fo_pending fo)]> fs) w)).
Proof.
  intros Hh Hf. unfold py_close. rewrite Hh, Hf, flush_data_insert.
  destruct (decide _); reflexivity.
Qed.

(** What [writeDeck] returns and leaves behind, case by case.  The error
    of a full device surfaces in [f.close()], which releases the handle,
    unless the text is too long to be held back: longer than the pending
    text may be, longer than the buffer, and with more left unwritten
    than the buffer takes. *)
Lemma writeDeck_cases env text path w :
  writeDeck env text path w =
    if writable env path then
      if decide (String.length text <= disk_room env) then
        (Ok tt, set_files (<[path := text]> (files w)) w)
      else if decide (String.length text <= chunk_size
                      \/ String.length text <= block_size env
                      \/ String.length text - disk_room env <= block_size env) then
        (Err IOError,
         set_files (<[path := take_chars (disk_room env) text]> (files w)) w)
      else
        (Err IOError,
         set_handle (fresh (dom (handles w))) (file_object path "" "")
           (set_files (<[path := take_chars (disk_room env) text]> (files w)) w))
    else (Err IOError, w).
Proof.
  unfold writeDeck, mbind, Py_bind, py_open_w.
  destruct (writable env path); [|reflexivity].
  set (h := fresh (dom (handles w))).
  assert (Hfresh : handles w !! h = None) by apply fresh_handle_unused.
  unfold py_write. cbn [handles set_handle set_handles set_files files].
  rewrite lookup_insert_eq.
  cbn [fo_pending fo_path fo_buffer file_object].
  change ("" +:+ text) with text.
  destruct (decide (String.length text <= chunk_size)) as [Hc|Hc].
  - (* the text stays pending until close *)
    erewrite py_close_open;
      [| cbn [handles set_handle set_handles set_files]; apply lookup_insert_eq
       | cbn [files set_handle set_handles set_files fo_path file_object]; reflexivity ].
    cbn [fo_buffer fo_pending fo_path file_object String.length].
    change ("" +:+ text) with text. rewrite Nat.sub_0_r.
    unfold set_handle, set_handles, set_files.
    cbn [handles files exit_code output events].
    rewrite !insert_insert_eq, delete_insert_eq, (delete_id _ _ Hfresh).
    destruct (decide (String.length text <= disk_room env)); [reflexivity|].
    rewrite decide_True by (left; exact Hc). reflexivity.
  - unfold buffered_write.
    cbn [fo_pending fo_path fo_buffer file_object String.length].
    rewrite Nat.sub_0_r. change ("" +:+ text) with text.
    destruct (decide (String.length text <= block_size env)) as [Hb|Hb].
    + (* the buffered writer holds the text until close *)
      erewrite py_close_open;
        [| cbn [handles set_handle set_handles set_files]; apply lookup_insert_eq
         | cbn [files set_handle set_handles set_files fo_path file_object]; reflexivity ].
      cbn [fo_buffer fo_pending fo_path file_object String.length].
      rewrite app_nil_r_string. change ("" +:+ text) with text. rewrite Nat.sub_0_r.
      unfold set_handle, set_handles, set_files.
      cbn [handles files exit_code output events].
      rewrite !insert_insert_eq, delete_insert_eq, (delete_id _ _ Hfresh).
      destruct (decide (String.length text <= disk_room env)); [reflexivity|].
      rewrite decide_True by (right; left; exact Hb). reflexivity.
    + (* the text goes to the file during the write *)
      cbn [files set_handle set_handles set_files].
      rewrite flush_data_insert.
      cbn [String.length]. rewrite decide_True by lia.
      rewrite flush_data_insert. cbn [String.length]. rewrite Nat.sub_0_r.
      change ("" +:+ "") with "". change ("" +:+ text) with text.
      change ("" +:+ take_chars (disk_room env) text)
        with (take_chars (disk_room env) text).
      destruct (decide (String.length text <= disk_room env)) as [Hr|Hr].
      * erewrite py_close_open;
          [| cbn [handles set_handle set_handles set_files]; apply lookup_insert_eq
           | cbn [files set_handle set_handles set_files fo_path file_object]; reflexivity ].
        cbn [fo_buffer fo_pending fo_path file_object String.length].
        change ("" +:+ "") with "". rewrite app_nil_r_string.
        rewrite decide_True by (cbn; lia).
        unfold set_handle, set_handles, set_files.
        cbn [handles files exit_code output events].
        rewrite !insert_insert_eq, delete_insert_eq, (delete_id _ _ Hfresh).
        reflexivity.
      * rewrite length_drop_chars.
        destruct (decide (String.length text - disk_room env <= block_size env))
          as [Hrest|Hrest].
        -- erewrite py_close_open;
             [| cbn [handles set_handle set_handles set_files]; apply lookup_insert_eq
              | cbn [files set_handle set_handles set_files fo_path file_object];
                reflexivity ].
           cbn [fo_buffer fo_pending fo_path file_object].
           rewrite app_nil_r_string, length_drop_chars, length_take_chars.
           rewrite decide_False by lia.
           replace (disk_room env - Nat.min (disk_room env) (String.length text))
             with 0 by lia.
           change (take_chars 0 (drop_chars (disk_room env) text)) with "".
           rewrite app_nil_r_string.
           rewrite decide_True by (right; right; exact Hrest).
           unfold set_handle, set_handles, set_files.
           cbn [handles files exit_code output events].
           rewrite !insert_insert_eq, delete_insert_eq, (delete_id _ _ Hfresh).
           reflexivity.
        -- rewrite decide_False by tauto.
           unfold set_handle, set_handles, set_files.
           cbn [handles files exit_code output events].
           rewrite !insert_insert_eq. reflexivity.
Qed.

(** ** Clean-up: what is removed and what is left *)

Lemma rm_pattern_ok pat w : fst (rm_pattern pat w) = Ok tt.
Proof. unfold rm_pattern. destruct (decide _); reflexivity. Qed.

Lemma rm_pattern_files pat w :
  files (snd (rm_pattern pat w))
  = filter (fun kv => glob_match pat kv.1 = false) (files w).
Proof.
  unfold rm_pattern. destruct (decide _) as [Hnone|_]; [|reflexivity].
  cbn [print snd files]. symmetry. apply map_filter_id.
  intros name content Hlook. cbn [fst].
  destruct (glob_match pat name) eqn:Hm; [|reflexivity].
  exfalso.
  apply (map_filter_empty_not_lookup _ _ name content Hnone); [exact Hm|exact Hlook].
Qed.

Lemma rm_pattern_frame pat w :
  handles (snd (rm_pattern pat w)) = handles w
  /\ exit_code (snd (rm_pattern pat w)) = exit_code w
  /\ events (snd (rm_pattern pat w)) = events w.
Proof. unfold rm_pattern. destruct (decide _); repeat split. Qed.

Lemma cleanup_cons pat pats w :
  cleanup (pat :: pats) w = cleanup pats (snd (rm_pattern pat w)).
Proof.
  cbn [cleanup]. unfold mbind, Py_bind.
  pose proof (rm_pattern_ok pat w) as Hok.
  destruct (rm_pattern pat w) as [[[]|e] w']; [reflexivity|discriminate Hok].
Qed.

Lemma cleanup_ok pats w : fst (cleanup pats w) = Ok tt.
Proof.
  revert w. induction pats as [|pat pats IH]; intros w; [reflexivity|].
  rewrite cleanup_cons. apply IH.
Qed.

Lemma matches_some_cons pat pats name :
  matches_some (pat :: pats) name = glob_match pat name || matches_some pats name.
Proof. reflexivity. Qed.

(** The files left by [cleanup] are those that match none of the patterns. *)
Lemma cleanup_files pats w :
  files (snd (cleanup pats w))
  = filter (fun kv => matches_some pats kv.1 = false) (files w).
Proof.
  revert w. induction pats as [|pat pats IH]; intros w.
  - cbn [cleanup mret Py_ret snd]. symmetry. apply map_filter_id. reflexivity.
  - rewrite cleanup_cons, IH, rm_pattern_files, map_filter_filter.
    apply map_filter_ext. intros name content _. cbn [fst].
    rewrite matches_some_cons, orb_false_iff. tauto.
Qed.

Lemma cleanup_frame pats w :
  handles (snd (cleanup pats w)) = handles w
  /\ exit_code (snd (cleanup pats w)) = exit_code w
  /\ events (snd (cleanup pats w)) = events w.
Proof.
  revert w. induction pats as [|pat pats IH]; intros w; [repeat split|].
  rewrite cleanup_cons.
  destruct (IH (snd (rm_pattern pat w))) as (-> & -> & ->).
  apply rm_pattern_frame.
Qed.

(** A file that matches no pattern keeps its content. *)
Lemma cleanup_keeps pats w name :
  matches_some pats name = false ->
  files (snd (cleanup pats w)) !! name = files w !! name.
Proof.
  intros Hno. rewrite cleanup_files, map_lookup_filter.
  destruct (files w !! name) as [content|]; [|reflexivity].
  cbn. rewrite option_guard_True by exact Hno. reflexivity.
Qed.

(** After [cleanup] no file matches any of its patterns. *)
Lemma cleanup_none_left pats w name content :
  files (snd (cleanup pats w)) !! name = Some content ->
  matches_some pats name = false.
Proof.
  rewrite cleanup_files. intros H.
  apply map_lookup_filter_Some in H as [_ H]. exact H.
Qed.

Lemma cleanup_no_match pats w :
  (forall name content, files w !! name = Some content ->
                        matches_some pats name = false) ->
  files (snd (cleanup pats w)) = files w.
Proof.
  intros Hno. rewrite cleanup_files. apply map_filter_id.
  intros name content Hlook. exact (Hno name content Hlook).
Qed.

(** ** The shell line that runs the binary *)

Lemma shell_done_fst status w :
  fst (shell_done status w) = Ok (ipython_status status).
Proof. reflexivity. Qed.

Lemma execute_never_raises env bin inp out w :
  exists c, fst (execute env bin inp out w) = Ok c
            /\ exit_code (snd (execute env bin inp out w)) = Some c.
Proof.
  unfold execute.
  destruct (files w !! inp); [|eexists; split; reflexivity].
  destruct (writable env out); [|eexists; split; reflexivity].
  destruct (binaries env bin); eexists; split; reflexivity.
Qed.


Lemma execute_launched env bin inp out w prog stdin :
  files w !! inp = Some stdin ->
  writable env out = true ->
  binaries env bin = Some prog ->
  execute env bin inp out w
  = shell_done
      (proc_exit (prog (default "" (<[out := ""]> (files w) !! inp))
                    (<[out := ""]> (files w))))
      (set_files
         (<[out := proc_stdout (prog (default "" (<[out := ""]> (files w) !! inp))
                                  (<[out := ""]> (files w)))]>
            (proc_files (prog (default "" (<[out := ""]> (files w) !! inp))
                           (<[out := ""]> (files w))) ∪ files w))
         (add_event (Invoked bin inp out) w)).
Proof.
  intros Hin Hout Hbin. unfold execute. rewrite Hin, Hout, Hbin. reflexivity.
Qed.

(** When the two redirections name different files, the process reads
    what the input file holds. *)
Lemma stdin_after_truncation inp out stdin (fs : gmap string string) :
  inp <> out -> fs !! inp = Some stdin ->
  default "" (<[out := ""]> fs !! inp) = stdin.
Proof.
  intros Hne Hin. rewrite lookup_insert_ne by congruence. rewrite Hin. reflexivity.
Qed.

(** ** The cells in sequence *)


Lemma run_cell_ok {A} c (body : Py A) w a w' :
  body (add_event (CellStart c) w) = (Ok a, w') ->
  run_cell c body w = (Ok a, add_event (CellDone c) w').
Proof.
  intros H. unfold run_cell, mbind, Py_bind, add_event, log in *.
  cbn [snd] in *. rewrite H. reflexivity.
Qed.

Lemma run_cell_err {A} c (body : Py A) w e w' :
  body (add_event (CellStart c) w) = (Err e, w') ->
  run_cell c body w = (Err e, w').
Proof.
  intros H. unfold run_cell, mbind, Py_bind, add_event, log in *.
  cbn [snd] in *. rewrite H. reflexivity.
Qed.

Lemma events_add_event e w : events (add_event e w) = events w ++ [e].
Proof. reflexivity. Qed.

Lemma new_events_app w w' es :
  events w' = events w ++ es -> new_events w w' = es.
Proof. intros H. unfold new_events. rewrite H. apply drop_app_length. Qed.


Lemma writeDeck_fst env text path w :
  fst (writeDeck env text path w)
  = if writable env path && bool_decide (String.length text <= disk_room env)
    then Ok tt else Err IOError.
Proof.
  rewrite writeDeck_cases. destruct (writable env path); [|reflexivity].
  cbn [andb]. destruct (decide _) as [H|H].
  - rewrite bool_decide_eq_true_2 by exact H. reflexivity.
  - rewrite bool_decide_eq_false_2 by exact H.
    destruct (decide _); reflexivity.
Qed.

Lemma execute_files env bin inp out w :
  files (snd (execute env bin inp out w)) =
    match files w !! inp with
    | None => files w
    | Some _ =>
        if writable env out then
          match binaries env bin with
          | None => <[out := ""]> (files w)
          | Some prog =>
              <[out := proc_stdout (prog (default "" (<[out := ""]> (files w) !! inp))
                                      (<[out := ""]> (files w)))]>
                (proc_files (prog (default "" (<[out := ""]> (files w) !! inp))
                               (<[out := ""]> (files w))) ∪ files w)
          end
        else files w
    end.
Proof.
  unfold execute.
  destruct (files w !! inp); [|reflexivity].
  destruct (writable env out); [|reflexivity].
  destruct (binaries env bin); reflexivity.
Qed.

Lemma execute_handles env bin inp out w :
  handles (snd (execute env bin inp out w)) = handles w.
Proof.
  unfold execute.
  destruct (files w !! inp); [|reflexivity].
  destruct (writable env out); [|reflexivity].
  destruct (binaries env bin); reflexivity.
Qed.

(** ** The whole run, cell by cell *)

Lemma files_add_event e w : files (add_event e w) = files w.
Proof. reflexivity. Qed.

Lemma handles_add_event e w : handles (add_event e w) = handles w.
Proof. reflexivity. Qed.

Lemma output_add_event e w : output (add_event e w) = output w.
Proof. reflexivity. Qed.

Lemma execute_pair env bin inp out w :
  exists c, execute env bin inp out w = (Ok c, snd (execute env bin inp out w)).
Proof.
  destruct (execute_never_raises env bin inp out w) as (c & Hc & _).
  exists c. rewrite <- Hc. apply surjective_pairing.
Qed.

Lemma cleanup_pair pats w : cleanup pats w = (Ok tt, snd (cleanup pats w)).
Proof. rewrite <- (cleanup_ok pats w). apply surjective_pairing. Qed.

(** The world in which the write cell starts. *)
Lemma notebook_until_write env w :
  notebook env w =
    (run_cell CellWrite (writeDeck env QE_input_file deck_path);;
     run_cell CellExecute (execute env pw_x deck_path output_path);;
     run_cell CellCleanup (cleanup clean_patterns))
      (add_event (CellDone CellDeck) (add_event (CellStart CellDeck)
         (add_event (CellDone CellModuleLoad)
            (add_event (CellStart CellModuleLoad) w)))).
Proof.
  unfold notebook. unfold mbind at 1 2. unfold Py_bind at 1 2.
  rewrite (run_cell_ok CellModuleLoad module_load w tt _ eq_refl).
  rewrite (run_cell_ok CellDeck (mret QE_input_file) _ QE_input_file _ eq_refl).
  reflexivity.
Qed.

(** A run in which the deck can be written goes through all the cells. *)
Lemma notebook_complete env w :
  writable env deck_path = true ->
  String.length QE_input_file <= disk_room env ->
  exists w2 w4 w6,
    events w2 = events w ++ take 5 full_sequence
    /\ files w2 = files w /\ handles w2 = handles w /\ output w2 = output w
    /\ w4 = add_event (CellStart CellExecute) (add_event (CellDone CellWrite)
              (set_files (<[deck_path := QE_input_file]> (files w2)) w2))
    /\ w6 = add_event (CellStart CellCleanup) (add_event (CellDone CellExecute)
              (snd (execute env pw_x deck_path output_path w4)))
    /\ notebook env w
       = (Ok tt, add_event (CellDone CellCleanup) (snd (cleanup clean_patterns w6))).
Proof.
  intros Hw Hroom. rewrite notebook_until_write.
  set (w1 := add_event (CellDone CellDeck) _).
  exists (add_event (CellStart CellWrite) w1).
  eexists. eexists.
  split.
  { unfold w1. rewrite !events_add_event, <- !app_assoc. reflexivity. }
  split; [reflexivity|]. split; [reflexivity|]. split; [reflexivity|].
  split; [reflexivity|]. split; [reflexivity|].
  unfold mbind, Py_bind.
  assert (Hwrite : writeDeck env QE_input_file deck_path (add_event (CellStart CellWrite) w1)
                   = (Ok tt, set_files (<[deck_path := QE_input_file]>
                                (files (add_event (CellStart CellWrite) w1)))
                               (add_event (CellStart CellWrite) w1))).
  { rewrite writeDeck_cases, Hw, decide_True by exact Hroom. reflexivity. }
  rewrite (run_cell_ok _ _ _ _ _ Hwrite).
  match goal with
  | |- context [run_cell CellExecute _ ?W] =>
      destruct (execute_pair env pw_x deck_path output_path
                  (add_event (CellStart CellExecute) W)) as [c Hexec]
  end.
  rewrite (run_cell_ok _ _ _ _ _ Hexec).
  match goal with
  | |- context [run_cell CellCleanup _ ?W] =>
      rewrite (run_cell_ok _ _ _ _ _
                 (cleanup_pair clean_patterns (add_event (CellStart CellCleanup) W)))
  end.
  reflexivity.
Qed.

(** A run in which the deck cannot be written stops in the write cell. *)
Lemma notebook_aborted env w :
  writable env deck_path && bool_decide (String.length QE_input_file <= disk_room env)
    = false ->
  exists w2,
    files w2 = files w /\ handles w2 = handles w /\ output w2 = output w
    /\ events w2 = events w ++ take 5 full_sequence
    /\ notebook env w
       = (Err IOError, snd (writeDeck env QE_input_file deck_path w2)).
Proof.
  intros Hno. rewrite notebook_until_write.
  set (w1 := add_event (CellDone CellDeck) _).
  exists (add_event (CellStart CellWrite) w1).
  split; [reflexivity|]. split; [reflexivity|]. split; [reflexivity|].
  split.
  { unfold w1. rewrite !events_add_event, <- !app_assoc. reflexivity. }
  unfold mbind, Py_bind.
  pose proof (writeDeck_fst env QE_input_file deck_path
                (add_event (CellStart CellWrite) w1)) as Hfst.
  rewrite Hno in Hfst.
  destruct (writeDeck env QE_input_file deck_path (add_event (CellStart CellWrite) w1))
    as [r w3] eqn:Hwrite.
  cbn [fst] in Hfst. subst r.
  rewrite (run_cell_err _ _ _ _ _ Hwrite). reflexivity.
Qed.

Lemma notebook_ok_inv env w :
  fst (notebook env w) = Ok tt ->
  writable env deck_path = true
  /\ String.length QE_input_file <= disk_room env.
Proof.
  intros Hok.
  destruct (writable env deck_path
            && bool_decide (String.length QE_input_file <= disk_room env)) eqn:E.
  - apply andb_true_iff in E as [Hw Hroom].
    split; [exact Hw|]. apply bool_decide_eq_true in Hroom. exact Hroom.
  - destruct (notebook_aborted env w E) as (w2 & _ & _ & _ & _ & Hrun).
    rewrite Hrun in Hok. discriminate Hok.
Qed.

Lemma deck_and_output_differ : deck_path <> output_path.
Proof. discriminate. Qed.

(** * The claims *)

(** ** Deck builder *)

Lemma deck_text_lines d : lines (deck_text d) = deck_lines d.
Proof. apply lines_unlines, deck_lines_single_line. Qed.

Lemma buildDeck_valid d : valid_deck d -> buildDeck d = Ok (deck_text d).
Proof. intros Hv. unfold buildDeck. rewrite decide_True by exact Hv. reflexivity. Qed.












(** C7: for every deck whose declared atom count equals the number of
    coordinate rows and whose declared species count equals the number
    of distinct species, [buildDeck] succeeds, and the text has exactly
    one header line for each section of the deck. *)
Theorem buildDeck_valid_headers (d : SimulationDeck) :
  valid_deck d ->
  exists text,
    buildDeck d = Ok text
    /\ section_headers text = all_sections
    /\ forall sec : Section,
         length (filter (fun h => h = sec) (section_headers text)) = 1.
Proof.
  intros Hv. exists (deck_text d). split; [exact (buildDeck_valid d Hv)|].
  unfold section_headers.
  rewrite deck_text_lines, headers_deck_lines.
  split; [reflexivity|].
  intros []; reflexivity.
Qed.

Lemma buildDeck_valid_headers_witness :
  valid_deck tutorial_deck
  /\ exists text,
       buildDeck tutorial_deck = Ok text
       /\ section_headers text = all_sections
       /\ forall sec : Section,
            length (filter (fun h => h = sec) (section_headers text)) = 1.
Proof.
  assert (H : valid_deck tutorial_deck) by (split; reflexivity).
  split; [exact H|]. exact (buildDeck_valid_headers tutorial_deck H).
Defined.

(** ** Runner: writing the deck *)





(** Beyond the texts of the theorem above: a text too long to be held
    back makes [f.write] itself raise on a device without room, and
    then [f.close()] is not reached. *)
Lemma writeDeck_long_text env text path w :
  writable env path = true ->
  chunk_size < String.length text ->
  block_size env < String.length text - disk_room env ->
  fst (writeDeck env text path w) = Err IOError
  /\ handles (snd (writeDeck env text path w)) !! fresh (dom (handles w))
     = Some (file_object path "" "").
Proof.
  intros Hw Hc Hb. rewrite writeDeck_cases, Hw.
  rewrite decide_False by lia. rewrite decide_False by lia.
  split; [reflexivity|]. cbn [snd set_handle set_handles handles].
  apply lookup_insert_eq.
Qed.

Lemma deck_fits_env_stub : String.length QE_input_file <= disk_room env_stub.
Proof. apply Nat.leb_le. vm_compute. reflexivity. Defined.

(** C5: for every valid deck, once the text that [buildDeck] produced has
    been written to a file, reading the file back returns exactly that
    text. *)
Theorem deck_round_trip (env : Env) (d : SimulationDeck) (text path : string) (w : World) :
  valid_deck d ->
  buildDeck d = Ok text ->
  fst (writeDeck env text path w) = Ok tt ->
  fst (py_read path (snd (writeDeck env text path w))) = Ok text.
Proof.
  intros _ _ Hok. rewrite writeDeck_fst in Hok.
  destruct (writable env path) eqn:Hw; [|discriminate Hok].
  destruct (bool_decide (String.length text <= disk_room env)) eqn:Hroom;
    [|discriminate Hok].
  apply bool_decide_eq_true in Hroom.
  rewrite writeDeck_cases, Hw, decide_True by exact Hroom.
  unfold py_read. cbn [snd set_files files].
  rewrite lookup_insert_eq. reflexivity.
Qed.

Lemma writeDeck_env_stub_ok :
  fst (writeDeck env_stub QE_input_file deck_path world0) = Ok tt.
Proof.
  rewrite writeDeck_fst. cbn [writable env_stub andb].
  rewrite bool_decide_eq_true_2 by exact deck_fits_env_stub. reflexivity.
Defined.

Lemma valid_tutorial_deck : valid_deck tutorial_deck.
Proof. split; reflexivity. Defined.

Lemma deck_round_trip_witness :
  fst (py_read deck_path (snd (writeDeck env_stub QE_input_file deck_path world0)))
  = Ok QE_input_file.
Proof.
  apply (deck_round_trip env_stub tutorial_deck).
  - exact valid_tutorial_deck.
  - vm_compute. reflexivity.
  - exact writeDeck_env_stub_ok.
Defined.

(** ** Runner: running the binary *)

Lemma ipython_status_small c : (c <= 128)%Z -> ipython_status c = c.
Proof.
  intros Hc. unfold ipython_status.
  destruct (128 <? c)%Z eqn:E; [|reflexivity].
  apply Z.ltb_lt in E. lia.
Qed.

Lemma ipython_status_large c : (128 < c)%Z -> ipython_status c = (128 - c)%Z.
Proof.
  intros Hc. unfold ipython_status.
  destruct (128 <? c)%Z eqn:E; [lia|].
  apply Z.ltb_ge in E. lia.
Qed.

Lemma world_with_deck_has_deck :
  files world_with_deck !! deck_path = Some QE_input_file.
Proof. apply lookup_singleton_eq. Defined.

(** C6, as stated, fails: a binary that ends with status 200 makes
    [execute] return -72, not 200. *)
Lemma execute_status_200 :
  proc_exit (loud_binary QE_input_file
               (<[output_path := ""]> (files world_with_deck))) = 200%Z
  /\ fst (execute env_loud pw_x deck_path output_path world_with_deck) = Ok (-72)%Z
  /\ exit_code (snd (execute env_loud pw_x deck_path output_path world_with_deck))
     = Some (-72)%Z.
Proof. split; [reflexivity|]. split; vm_compute; reflexivity. Qed.

(** C6, amended: [execute] waits for the process and never raises.  An
    exit code up to 128, zero or not, is returned as it is and left in
    [_exit_code]; an exit code [c] above 128 is returned as
    [-(c - 128)], the way IPython reports a child ended by a signal.
    The process reads what the input file holds once the output file
    has been truncated. *)
Theorem execute_exit_code (env : Env) (bin inp out : string) (w : World)
    (prog : Program) (stdin : string) (c : Z) :
  files w !! inp = Some stdin ->
  writable env out = true ->
  binaries env bin = Some prog ->
  proc_exit (prog (default "" (<[out := ""]> (files w) !! inp))
               (<[out := ""]> (files w))) = c ->
  ((c <= 128)%Z ->
     fst (execute env bin inp out w) = Ok c
     /\ exit_code (snd (execute env bin inp out w)) = Some c)
  /\ ((128 < c)%Z ->
        fst (execute env bin inp out w) = Ok (128 - c)%Z
        /\ exit_code (snd (execute env bin inp out w)) = Some (128 - c)%Z).
Proof.
  intros Hin Hout Hbin Hc.
  rewrite (execute_launched env bin inp out w prog stdin Hin Hout Hbin), Hc.
  unfold shell_done. cbn [fst snd exit_code set_exit_code].
  split; intros Hrange.
  - rewrite (ipython_status_small c Hrange). split; reflexivity.
  - rewrite (ipython_status_large c Hrange). split; reflexivity.
Qed.

(** The stub binary exits with 1, and [execute] returns 1. *)
Lemma execute_exit_code_witness :
  fst (execute env_stub pw_x deck_path output_path world_with_deck) = Ok 1%Z
  /\ exit_code (snd (execute env_stub pw_x deck_path output_path world_with_deck))
     = Some 1%Z.
Proof.
  apply (proj1 (execute_exit_code env_stub pw_x deck_path output_path world_with_deck
                  stub_binary QE_input_file 1%Z
                  world_with_deck_has_deck eq_refl eq_refl eq_refl)).
  vm_compute. discriminate.
Defined.

(** ** The run as a whole *)

Lemma invocations_full_sequence : invocations full_sequence = 1.
Proof. reflexivity. Qed.


(** The files at the end of a run in which the binary is launched. *)
Lemma notebook_complete_files env w prog :
  writable env deck_path = true ->
  String.length QE_input_file <= disk_room env ->
  writable env output_path = true ->
  binaries env pw_x = Some prog ->
  files (snd (notebook env w))
  = filter (fun kv => matches_some clean_patterns kv.1 = false)
      (<[output_path :=
           proc_stdout (prog QE_input_file
                          (<[output_path := ""]>
                             (<[deck_path := QE_input_file]> (files w))))]>
         (proc_files (prog QE_input_file
                        (<[output_path := ""]>
                           (<[deck_path := QE_input_file]> (files w))))
          ∪ <[deck_path := QE_input_file]> (files w))).
Proof.
  intros Hw Hroom Hout Hbin.
  destruct (notebook_complete env w Hw Hroom)
    as (w2 & w4 & w6 & _ & Hf2 & _ & _ & Hw4 & Hw6 & Hrun).
  rewrite Hrun. cbn [snd]. rewrite files_add_event, cleanup_files.
  assert (Hfiles4 : files w4 = <[deck_path := QE_input_file]> (files w)).
  { rewrite Hw4, !files_add_event. cbn [set_files files]. rewrite Hf2. reflexivity. }
  rewrite Hw6, !files_add_event, execute_files, Hfiles4.
  rewrite lookup_insert_eq, Hout, Hbin.
  rewrite (stdin_after_truncation deck_path output_path QE_input_file)
    by (first [exact deck_and_output_differ | apply lookup_insert_eq]).
  reflexivity.
Qed.



Lemma notebook_env_stub_ok : fst (notebook env_stub world0) = Ok tt.
Proof. vm_compute. reflexivity. Defined.

(** A whole run on the sample machine: the deck is on disk, the stub's
    status 1 is in [_exit_code], and the clean-up printed the four
    recorded lines. *)
Example notebook_env_stub_run :
  notebook env_stub world0
  = (Ok tt,
     mkWorld {[ deck_path := QE_input_file; output_path := "" ]} ∅ (Some 1%Z)
       recorded_cleanup_output full_sequence).
Proof. vm_compute. reflexivity. Qed.


(** ** The run prefix *)

(** C9: every stage uses the run prefix [x0]: the deck declares
    [prefix = 'x0'], the input file [x0.md.in] and the output file
    [x0.md.out] start with it, and so do the two prefix-scoped clean-up
    patterns [x0.w*] and [x0.u*]. *)
Theorem run_prefix_shared :
  tok (prefix (control tutorial_deck)) = "x0"
  /\ deck_prefix QE_input_file = Some "x0"
  /\ name_prefix deck_path = "x0"
  /\ name_prefix output_path = "x0"
  /\ filter (fun pat => prefix_scoped pat = true) clean_patterns = ["x0.w*"; "x0.u*"]
  /\ Forall (fun pat => name_prefix pat = "x0")
       (filter (fun pat => prefix_scoped pat = true) clean_patterns).
Proof.
  split; [reflexivity|].
  split; [vm_compute; reflexivity|].
  split; [reflexivity|]. split; [reflexivity|].
  split; [reflexivity|].
  change (filter (fun pat => prefix_scoped pat = true) clean_patterns)
    with ["x0.w*"; "x0.u*"].
  repeat constructor.
Qed.

(** ** Clean-up *)

Lemma clean_patterns_spare_deck : matches_some clean_patterns deck_path = false.
Proof. reflexivity. Qed.

Lemma clean_patterns_spare_output : matches_some clean_patterns output_path = false.
Proof. reflexivity. Qed.

(** C10: none of the patterns [x0.w*], [sl*], [x0.u*], [CR*] matches
    [x0.md.in] or [x0.md.out], and the clean-up leaves both files as they
    were. *)
Theorem cleanup_spares_deck_and_output (w : World) :
  Forall (fun pat => glob_match pat deck_path = false
                     /\ glob_match pat output_path = false) clean_patterns
  /\ files (snd (cleanup clean_patterns w)) !! deck_path = files w !! deck_path
  /\ files (snd (cleanup clean_patterns w)) !! output_path = files w !! output_path.
Proof.
  split; [repeat constructor|].
  split; apply cleanup_keeps; reflexivity.
Qed.

Lemma rm_pattern_no_match pat w :
  (forall name content, files w !! name = Some content ->
                        glob_match pat name = false) ->
  rm_pattern pat w = print (rm_diagnostic pat) w.
Proof.
  intros Hno. unfold rm_pattern. rewrite decide_True; [reflexivity|].
  apply map_empty. intros name. apply map_lookup_filter_None.
  destruct (files w !! name) as [content|] eqn:Hlook; [right|left; reflexivity].
  intros content' [= <-]. cbn [fst]. rewrite (Hno name content Hlook). discriminate.
Qed.

(** C2: [cleanup] is idempotent.  Neither the first nor the second call
    raises; after the first call no file matches any pattern, and the
    second call deletes nothing and changes nothing but the printed
    output; and
    a single pattern that matches no file is no failure either: [rm]
    prints its diagnostic, the files stay as they are and the step goes
    on. *)
Theorem cleanup_idempotent (globPatterns : list string) (w : World) :
  let w1 := snd (cleanup globPatterns w) in
  let w2 := snd (cleanup globPatterns w1) in
  fst (cleanup globPatterns w) = Ok tt
  /\ (forall name content, files w1 !! name = Some content ->
                           matches_some globPatterns name = false)
  /\ fst (cleanup globPatterns w1) = Ok tt
  /\ files w2 = files w1
  /\ handles w2 = handles w1
  /\ events w2 = events w1
  /\ forall pat : string,
       (forall name content, files w !! name = Some content ->
                             glob_match pat name = false) ->
       fst (rm_pattern pat w) = Ok tt
       /\ files (snd (rm_pattern pat w)) = files w.
Proof.
  cbn zeta.
  split; [apply cleanup_ok|].
  split; [intros name content; apply cleanup_none_left|].
  split; [apply cleanup_ok|].
  split.
  { apply cleanup_no_match. intros name content. apply cleanup_none_left. }
  destruct (cleanup_frame globPatterns (snd (cleanup globPatterns w)))
    as (Hh & _ & He).
  split; [exact Hh|]. split; [exact He|].
  intros pat Hno. rewrite (rm_pattern_no_match pat w Hno). split; reflexivity.
Qed.

Lemma cleanup_idempotent_witness :
  fst (rm_pattern "x0.w*" world_with_deck) = Ok tt
  /\ files (snd (rm_pattern "x0.w*" world_with_deck)) = files world_with_deck.
Proof.
  apply (cleanup_idempotent clean_patterns world_with_deck).
  intros name content Hlook.
  change (files world_with_deck)
    with ({[ deck_path := QE_input_file ]} : gmap string string) in Hlook.
  apply lookup_singleton_Some in Hlook as [<- _]. reflexivity.
Defined.

(** In a working directory where nothing matches, as in the run the
    notebook records, the clean-up prints the four recorded lines. *)
Lemma cleanup_reference_run w :
  (forall name content, files w !! name = Some content ->
                        matches_some clean_patterns name = false) ->
  cleanup clean_patterns w
  = (Ok tt, mkWorld (files w) (handles w) (exit_code w)
              (output w ++ recorded_cleanup_output) (events w)).
Proof.
  intros Hno.
  assert (Hpat : forall pat, pat ∈ clean_patterns ->
            forall w', files w' = files w ->
            rm_pattern pat w' = print (rm_diagnostic pat) w').
  { intros pat Hin w' Hw'. apply rm_pattern_no_match.
    intros name content Hlook. rewrite Hw' in Hlook.
    specialize (Hno name content Hlook).
    unfold matches_some in Hno.
    destruct (glob_match pat name) eqn:Hm; [|reflexivity].
    rewrite <- Hno. symmetry. apply existsb_exists.
    exists pat. split; [apply list_elem_of_In, Hin|exact Hm]. }
  unfold clean_patterns in *.
  rewrite !cleanup_cons.
  rewrite (Hpat "x0.w*") by (try reflexivity; repeat constructor).
  rewrite (Hpat "sl*") by (try reflexivity; repeat constructor).
  rewrite (Hpat "x0.u*") by (try reflexivity; repeat constructor).
  rewrite (Hpat "CR*") by (try reflexivity; repeat constructor).
  cbn [cleanup mret Py_ret print snd files handles exit_code output events].
  rewrite <- !app_assoc. reflexivity.
Qed.

(** * Further properties of the cells *)

(** ** The write cell *)

(** X1: [open(path, "w")] truncates.  When the cell that writes the deck
    returns, the file holds exactly the text, whatever it held before,
    and every other file of the directory is as it was. *)
Theorem writeDeck_overwrites (env : Env) (text path : string) (w : World) :
  fst (writeDeck env text path w) = Ok tt ->
  files (snd (writeDeck env text path w)) = <[path := text]> (files w)
  /\ (forall other, other <> path ->
        files (snd (writeDeck env text path w)) !! other = files w !! other).
Proof.
  intros Hok. rewrite writeDeck_fst in Hok. rewrite writeDeck_cases.
  destruct (writable env path); [|discriminate Hok].
  destruct (decide (String.length text <= disk_room env)) as [Hroom|Hroom].
  - cbn [snd set_files files]. split; [reflexivity|].
    intros other Hne. apply lookup_insert_ne. congruence.
  - rewrite bool_decide_eq_false_2 in Hok by exact Hroom. discriminate Hok.
Qed.

Lemma writeDeck_overwrites_witness :
  files (snd (writeDeck env_stub QE_input_file deck_path world_with_deck))
  = <[deck_path := QE_input_file]> (files world_with_deck)
  /\ (forall other, other <> deck_path ->
        files (snd (writeDeck env_stub QE_input_file deck_path world_with_deck)) !! other
        = files world_with_deck !! other).
Proof.
  apply (writeDeck_overwrites env_stub QE_input_file deck_path world_with_deck).
  rewrite writeDeck_fst. cbn [writable env_stub andb].
  rewrite bool_decide_eq_true_2 by exact deck_fits_env_stub. reflexivity.
Defined.

(** X2: running the write cell again changes nothing: after a second
    successful run the files and the open handles are those left by the
    first. *)
Theorem writeDeck_twice (env : Env) (text path : string) (w : World) :
  fst (writeDeck env text path w) = Ok tt ->
  let w1 := snd (writeDeck env text path w) in
  fst (writeDeck env text path w1) = Ok tt
  /\ files (snd (writeDeck env text path w1)) = files w1
  /\ handles (snd (writeDeck env text path w1)) = handles w1.
Proof.
  intros Hok. cbn zeta.
  split; [rewrite writeDeck_fst in *; exact Hok|].
  rewrite writeDeck_fst in Hok.
  rewrite (writeDeck_cases env text path (snd (writeDeck env text path w))).
  rewrite (writeDeck_cases env text path w).
  destruct (writable env path); [|discriminate Hok].
  destruct (decide (String.length text <= disk_room env)) as [Hroom|Hroom].
  - cbn [snd set_files files handles]. split; [|reflexivity].
    apply insert_insert_eq.
  - rewrite bool_decide_eq_false_2 in Hok by exact Hroom. discriminate Hok.
Qed.

Lemma writeDeck_twice_witness :
  fst (writeDeck env_stub QE_input_file deck_path
         (snd (writeDeck env_stub QE_input_file deck_path world0))) = Ok tt
  /\ files (snd (writeDeck env_stub QE_input_file deck_path
                   (snd (writeDeck env_stub QE_input_file deck_path world0))))
     = files (snd (writeDeck env_stub QE_input_file deck_path world0))
  /\ handles (snd (writeDeck env_stub QE_input_file deck_path
                     (snd (writeDeck env_stub QE_input_file deck_path world0))))
     = handles (snd (writeDeck env_stub QE_input_file deck_path world0)).
Proof.
  exact (writeDeck_twice env_stub QE_input_file deck_path world0
           writeDeck_env_stub_ok).
Defined.

(** ** The cell that runs the binary *)

(** X3: when the binary is launched, the output file holds exactly what
    the process wrote to its standard output, in place of anything the
    file held before, and a file that is neither the output file nor
    written by the process keeps its content.  The process reads what
    the input file holds once the output file has been truncated: the
    content of the input file, when the two are different files. *)
Theorem execute_redirects_output (env : Env) (bin inp out : string) (w : World)
    (prog : Program) (stdin : string) :
  files w !! inp = Some stdin ->
  writable env out = true ->
  binaries env bin = Some prog ->
  let r := prog (default "" (<[out := ""]> (files w) !! inp))
             (<[out := ""]> (files w)) in
  files (snd (execute env bin inp out w)) !! out = Some (proc_stdout r)
  /\ (forall other, other <> out -> proc_files r !! other = None ->
        files (snd (execute env bin inp out w)) !! other = files w !! other)
  /\ (inp <> out -> r = prog stdin (<[out := ""]> (files w))).
Proof.
  intros Hin Hout Hbin. cbn zeta.
  rewrite execute_files, Hin, Hout, Hbin. split; [|split].
  - apply lookup_insert_eq.
  - intros other Hne Hnone.
    rewrite lookup_insert_ne by congruence.
    rewrite lookup_union_r by exact Hnone. reflexivity.
  - intros Hne. rewrite (stdin_after_truncation inp out stdin _ Hne Hin).
    reflexivity.
Qed.

Lemma execute_redirects_output_witness :
  files (snd (execute env_stub pw_x deck_path output_path world_with_deck))
    !! output_path = Some ""
  /\ (forall other, other <> output_path ->
        (∅ : gmap string string) !! other = None ->
        files (snd (execute env_stub pw_x deck_path output_path world_with_deck))
          !! other = files world_with_deck !! other).
Proof.
  destruct (execute_redirects_output env_stub pw_x deck_path output_path
              world_with_deck stub_binary QE_input_file
              world_with_deck_has_deck eq_refl eq_refl) as (H1 & H2 & _).
  split; [exact H1|exact H2].
Defined.

(** X4: the run reaches its end exactly when the deck can be written: the
    path [x0.md.in] is writable and the disk has room for the text.
    Nothing the shell lines meet stops it: not a missing binary, not a
    non-zero status of [pw.x], not the complaints of [rm]. *)
Theorem notebook_completes_iff (env : Env) (w : World) :
  fst (notebook env w) = Ok tt
  <-> writable env deck_path = true
      /\ String.length QE_input_file <= disk_room env.
Proof.
  split; [apply notebook_ok_inv|].
  intros [Hw Hroom].
  destruct (notebook_complete env w Hw Hroom) as (w2 & w4 & w6 & _ & _ & _ & _ & _ & _ & Hrun).
  rewrite Hrun. reflexivity.
Qed.

Lemma notebook_completes_iff_witness : fst (notebook env_stub world0) = Ok tt.
Proof.
  apply (proj2 (notebook_completes_iff env_stub world0)).
  split; [reflexivity|exact deck_fits_env_stub].
Defined.

(** X5: when [x0.md.in] cannot be opened for writing the run stops in
    the write cell with [IOError]: [pw.x] is not invoked, the clean-up
    does not run, and no file is created, changed or removed; no handle
    is left open. *)
Theorem notebook_unwritable_deck (env : Env) (w : World) :
  writable env deck_path = false ->
  fst (notebook env w) = Err IOError
  /\ files (snd (notebook env w)) = files w
  /\ handles (snd (notebook env w)) = handles w
  /\ invocations (new_events w (snd (notebook env w))) = 0
  /\ CellStart CellCleanup ∉ new_events w (snd (notebook env w)).
Proof.
  intros Hw.
  assert (Hno : writable env deck_path
                && bool_decide (String.length QE_input_file <= disk_room env) = false)
    by (rewrite Hw; reflexivity).
  destruct (notebook_aborted env w Hno) as (w2 & Hf & Hh & Ho & He & Hrun).
  rewrite Hrun. cbn [fst snd].
  rewrite writeDeck_cases, Hw. cbn [snd].
  rewrite (new_events_app w w2 _ He).
  split; [reflexivity|]. split; [exact Hf|]. split; [exact Hh|].
  split; [reflexivity|].
  cbn [take full_sequence]. rewrite !not_elem_of_cons.
  repeat split; first [discriminate | apply not_elem_of_nil].
Qed.

Lemma notebook_unwritable_deck_witness :
  fst (notebook env_readonly world0) = Err IOError
  /\ files (snd (notebook env_readonly world0)) = files world0
  /\ handles (snd (notebook env_readonly world0)) = handles world0
  /\ invocations (new_events world0 (snd (notebook env_readonly world0))) = 0
  /\ CellStart CellCleanup ∉ new_events world0 (snd (notebook env_readonly world0)).
Proof. exact (notebook_unwritable_deck env_readonly world0 eq_refl). Defined.

(** X6: a run that reaches its end leaves no file object open: the open
    handles are those there were before the first cell. *)
Theorem notebook_closes_handles (env : Env) (w : World) :
  fst (notebook env w) = Ok tt ->
  handles (snd (notebook env w)) = handles w.
Proof.
  intros Hok. destruct (notebook_ok_inv env w Hok) as [Hw Hroom].
  destruct (notebook_complete env w Hw Hroom)
    as (w2 & w4 & w6 & _ & _ & Hh2 & _ & -> & -> & Hrun).
  rewrite Hrun. cbn [snd]. rewrite handles_add_event.
  destruct (cleanup_frame clean_patterns
              (add_event (CellStart CellCleanup)
                 (add_event (CellDone CellExecute)
                    (snd (execute env pw_x deck_path output_path
                            (add_event (CellStart CellExecute)
                               (add_event (CellDone CellWrite)
                                  (set_files (<[deck_path := QE_input_file]> (files w2))
                                     w2)))))))) as (-> & _ & _).
  rewrite !handles_add_event, execute_handles, !handles_add_event.
  exact Hh2.
Qed.

Lemma notebook_closes_handles_witness :
  handles (snd (notebook env_stub world0)) = handles world0.
Proof. exact (notebook_closes_handles env_stub world0 notebook_env_stub_ok). Defined.

(** X7: at the end of a run no scratch file is left: no file of the
    working directory matches [x0.w*], [sl*], [x0.u*] or [CR*], whatever
    the binary wrote and whatever was there before. *)
Theorem notebook_leaves_no_scratch (env : Env) (w : World) (name content : string) :
  fst (notebook env w) = Ok tt ->
  files (snd (notebook env w)) !! name = Some content ->
  matches_some clean_patterns name = false.
Proof.
  intros Hok. destruct (notebook_ok_inv env w Hok) as [Hw Hroom].
  destruct (notebook_complete env w Hw Hroom)
    as (w2 & w4 & w6 & _ & _ & _ & _ & _ & _ & Hrun).
  rewrite Hrun. cbn [snd]. rewrite files_add_event.
  apply cleanup_none_left.
Qed.

Lemma notebook_leaves_no_scratch_witness :
  matches_some clean_patterns deck_path = false.
Proof.
  apply (notebook_leaves_no_scratch env_stub world0 deck_path QE_input_file).
  - exact notebook_env_stub_ok.
  - vm_compute. reflexivity.
Defined.

(** X8: in a run that reaches its end and in which the shell can launch
    [pw.x], the process reads exactly the text of [QE_input_file] on its
    standard input, in a directory that holds the deck and an empty
    [x0.md.out]; at the end [x0.md.out] holds what the process printed,
    and, if the process did not write to [x0.md.in], the deck is still
    there unchanged. *)
Theorem notebook_feeds_deck (env : Env) (w : World) (prog : Program) :
  fst (notebook env w) = Ok tt ->
  writable env output_path = true ->
  binaries env pw_x = Some prog ->
  let r := prog QE_input_file
             (<[output_path := ""]> (<[deck_path := QE_input_file]> (files w))) in
  files (snd (notebook env w)) !! output_path = Some (proc_stdout r)
  /\ (proc_files r !! deck_path = None ->
        files (snd (notebook env w)) !! deck_path = Some QE_input_file).
Proof.
  intros Hok Hout Hbin. cbn zeta.
  destruct (notebook_ok_inv env w Hok) as [Hw Hroom].
  rewrite (notebook_complete_files env w prog Hw Hroom Hout Hbin). split.
  - apply map_lookup_filter_Some_2; [apply lookup_insert_eq|].
    exact clean_patterns_spare_output.
  - intros Hnone.
    apply map_lookup_filter_Some_2; [|exact clean_patterns_spare_deck].
    rewrite lookup_insert_ne by (intros E; symmetry in E; exact (deck_and_output_differ E)).
    rewrite lookup_union_r by exact Hnone.
    apply lookup_insert_eq.
Qed.

Lemma notebook_feeds_deck_witness :
  files (snd (notebook env_stub world0)) !! output_path = Some ""
  /\ ((∅ : gmap string string) !! deck_path = None ->
        files (snd (notebook env_stub world0)) !! deck_path = Some QE_input_file).
Proof.
  exact (notebook_feeds_deck env_stub world0 stub_binary
           notebook_env_stub_ok eq_refl eq_refl).
Defined.

(** ** More on the clean-up *)

(** X9: what [cleanup] does to each file: a file whose name matches one
    of the patterns is gone, and every other file is there with the
    content it had; no file is created or changed. *)
Theorem cleanup_per_file (globPatterns : list string) (w : World) (name : string) :
  files (snd (cleanup globPatterns w)) !! name
  = if matches_some globPatterns name then None else files w !! name.
Proof.
  destruct (matches_some globPatterns name) eqn:Hm.
  - rewrite cleanup_files. apply map_lookup_filter_None. right.
    intros content _. cbn [fst]. rewrite Hm. discriminate.
  - apply cleanup_keeps, Hm.
Qed.

Lemma matches_some_true pats name :
  matches_some pats name = true <-> exists pat, pat ∈ pats /\ glob_match pat name = true.
Proof.
  unfold matches_some. rewrite existsb_exists. split.
  - intros (pat & Hin & Hm). exists pat. split; [apply list_elem_of_In, Hin|exact Hm].
  - intros (pat & Hin & Hm). exists pat. split; [apply list_elem_of_In, Hin|exact Hm].
Qed.

Lemma matches_some_same_elements pats pats' name :
  (forall pat, pat ∈ pats <-> pat ∈ pats') ->
  matches_some pats name = matches_some pats' name.
Proof.
  intros Hsame.
  destruct (matches_some pats name) eqn:H1, (matches_some pats' name) eqn:H2;
    try reflexivity.
  - apply matches_some_true in H1 as (pat & Hin & Hm).
    rewrite <- H2. symmetry. apply matches_some_true.
    exists pat. split; [apply Hsame, Hin|exact Hm].
  - apply matches_some_true in H2 as (pat & Hin & Hm).
    rewrite <- H1. apply matches_some_true.
    exists pat. split; [apply Hsame, Hin|exact Hm].
Qed.

(** X10: the files that [cleanup] leaves depend on which patterns are
    given, not on their order or on repetitions: two pattern lists with
    the same elements leave the same files. *)
Theorem cleanup_order_irrelevant (pats pats' : list string) (w : World) :
  (forall pat, pat ∈ pats <-> pat ∈ pats') ->
  files (snd (cleanup pats w)) = files (snd (cleanup pats' w)).
Proof.
  intros Hsame. rewrite !cleanup_files. apply map_filter_ext.
  intros name content _. cbn [fst].
  rewrite (matches_some_same_elements pats pats' name Hsame). reflexivity.
Qed.

Lemma cleanup_order_irrelevant_witness :
  files (snd (cleanup clean_patterns world_with_deck))
  = files (snd (cleanup (reverse clean_patterns) world_with_deck)).
Proof.
  apply (cleanup_order_irrelevant clean_patterns (reverse clean_patterns)).
  intros pat. symmetry. apply elem_of_reverse.
Defined.

(** X11: when no file matches any of the patterns, [cleanup] prints one
    [rm: cannot remove] line for each pattern, in the order of the
    patterns, and changes nothing else; this is the output the notebook
    records. *)
Theorem cleanup_nothing_to_remove (globPatterns : list string) (w : World) :
  (forall name content, files w !! name = Some content ->
                        matches_some globPatterns name = false) ->
  cleanup globPatterns w
  = (Ok tt, mkWorld (files w) (handles w) (exit_code w)
              (output w ++ map rm_diagnostic globPatterns) (events w)).
Proof.
  revert w. induction globPatterns as [|pat pats IH]; intros w Hno.
  - cbn [cleanup mret Py_ret map]. rewrite app_nil_r. destruct w; reflexivity.
  - rewrite cleanup_cons, rm_pattern_no_match.
    + rewrite IH.
      * cbn [print snd files handles exit_code output events map].
        rewrite <- app_assoc. reflexivity.
      * intros name content Hlook. cbn [print snd files] in Hlook.
        specialize (Hno name content Hlook).
        rewrite matches_some_cons in Hno.
        apply orb_false_iff in Hno as [_ Hno]. exact Hno.
    + intros name content Hlook. specialize (Hno name content Hlook).
      rewrite matches_some_cons in Hno.
      apply orb_false_iff in Hno as [Hno _]. exact Hno.
Qed.

Lemma cleanup_nothing_to_remove_witness :
  cleanup clean_patterns world_with_deck
  = (Ok tt, mkWorld (files world_with_deck) (handles world_with_deck)
              (exit_code world_with_deck)
              (output world_with_deck ++ map rm_diagnostic clean_patterns)
              (events world_with_deck)).
Proof.
  apply (cleanup_nothing_to_remove clean_patterns world_with_deck).
  intros name content Hlook.
  change (files world_with_deck)
    with ({[ deck_path := QE_input_file ]} : gmap string string) in Hlook.
  apply lookup_singleton_Some in Hlook as [<- _]. reflexivity.
Defined.

(** ** The patterns *)

Lemma wild_match_star_unfold p n :
  wild_match (String "*" p) n
  = wild_match p n
    || match n with
       | EmptyString => false
       | String _ n' => wild_match (String "*" p) n'
       end.
Proof. destruct n; reflexivity. Qed.

Lemma wild_match_star_any n : wild_match "*" n = true.
Proof.
  induction n as [|c n IH]; [reflexivity|].
  rewrite wild_match_star_unfold, IH. apply orb_true_r.
Qed.

Lemma wild_match_literal_star p n :
  literal p = true -> wild_match (p +:+ "*") n = String.prefix p n.
Proof.
  revert n. induction p as [|c p IH]; intros n Hlit.
  - rewrite app_empty_l, wild_match_star_any. destruct n; reflexivity.
  - cbn [literal] in Hlit.
    apply andb_true_iff in Hlit as [Hc Hlit].
    apply andb_true_iff in Hc as [Hstar Hq].
    apply negb_true_iff in Hstar, Hq.
    rewrite app_String. cbn [wild_match]. rewrite Hstar, Hq.
    destruct n as [|d n]; [reflexivity|].
    cbn [String.prefix]. rewrite (IH n Hlit).
    destruct (ascii_dec c d) as [->|Hne].
    + rewrite Ascii.eqb_refl. reflexivity.
    + apply Ascii.eqb_neq in Hne. rewrite Hne. reflexivity.
Qed.

Lemma glob_match_literal_star c p name :
  Ascii.eqb c "." = false -> literal (String c p) = true ->
  glob_match (String c p +:+ "*") name = String.prefix (String c p) name.
Proof.
  intros Hdot Hlit. unfold glob_match.
  rewrite (wild_match_literal_star _ name Hlit).
  destruct name as [|d name]; [reflexivity|].
  cbn [starts_with_dot]. rewrite app_String. cbn [starts_with_dot].
  rewrite Hdot. cbn [negb]. rewrite andb_true_r.
  destruct (Ascii.eqb d ".") eqn:Hd; [|reflexivity].
  apply Ascii.eqb_eq in Hd. subst d. cbn [String.prefix].
  destruct (ascii_dec c ".") as [->|_]; [discriminate Hdot|reflexivity].
Qed.

(** X12: the clean-up removes exactly the files whose name begins with
    [x0.w], [sl], [x0.u] or [CR]: a name matches one of the four patterns
    if and only if it has one of these four beginnings. *)
Theorem clean_patterns_are_prefixes (name : string) :
  matches_some clean_patterns name
  = String.prefix "x0.w" name || String.prefix "sl" name
    || String.prefix "x0.u" name || String.prefix "CR" name.
Proof.
  unfold clean_patterns. rewrite !matches_some_cons.
  change "x0.w*" with ("x0.w" +:+ "*"). change "sl*" with ("sl" +:+ "*").
  change "x0.u*" with ("x0.u" +:+ "*"). change "CR*" with ("CR" +:+ "*").
  rewrite !glob_match_literal_star by reflexivity.
  cbn [matches_some existsb]. rewrite orb_false_r, !orb_assoc. reflexivity.
Qed.
